(** * gae-sessions: the session object and its two storage tiers

    A shallow embedding of [gaesessions/__init__.py].  The [Session] class
    becomes a record of its attributes, the App Engine services it talks to
    (memcache, the datastore, the clock, [os.urandom], [logging]) become an
    environment record, and every method is a computation in a small
    state-and-exception monad over the pair of both.  Python exceptions keep
    the state reached when they were raised. *)

From stdpp Require Import gmap strings list fin_maps pretty.
From Stdlib Require Import ZArith Ascii.

Local Open Scope Z_scope.
Local Open Scope string_scope.

(** ** Python-level data *)

(** [datetime.datetime] values, as microseconds on the time line. *)
Definition datetime := Z.

(** [datetime.timedelta(days=7)] in microseconds. *)
Definition COOKIE_LIFETIME : Z := 7 * 86400 * 1000000.

Definition COOKIE_PATH : string := "/".

(** The exceptions the module can meet. *)
Inductive exn :=
  | KeyError (arg : string)
  | AttributeError (attr : string)
  | TypeError
  | UnpicklingError
  | TransactionFailedError
  | CapabilityDisabledError
  | DbError
  | BadValueError.

(** What a datastore [put] can do: succeed, raise
    [db.TransactionFailedError], raise the [CapabilityDisabledError] of the
    API proxy, or raise another error ([db.Timeout], [db.InternalError],
    ...), which [PutOtherError] stands for and [DbError] is raised for. *)
Inductive put_outcome :=
  | PutOk
  | PutTransactionFailed
  | PutCapabilityDisabled
  | PutOtherError.

Inductive level := LWarning | LError.

(** Result of running a method: a returned value or a raised exception. *)
Inductive outcome (A : Type) :=
  | Ret (a : A)
  | Raise (e : exn).
Arguments Ret {A} a.
Arguments Raise {A} e.

(** Truth value of [self.sid] and [self.cookie_header_data]: [None] and the
    empty string are false. *)
Definition truthy (o : option string) : bool :=
  match o with
  | Some (String _ _) => true
  | _ => false
  end.

(** ** Types and services the module takes from its platform *)

(** The Python types the embedding leaves open: values that are pickled as
    they are ([opaque]), [db.Model] instances, their protocol buffers, and
    the byte strings [pickle.dumps] produces. *)
Class PyTypes := {
  opaque : Type;
  model : Type;
  protobuf : Type;
  pdump : Type;
}.

(** Session values.  Everything that is not a [db.Model] instance is pickled
    as it is; among those only datetimes are looked into (for the expiry of
    the cookie). *)
Inductive value `{PyTypes} :=
  | VDatetime (t : datetime)
  | VOpaque (o : opaque)
  | VModel (m : model).

(** [isinstance(v, db.Model)] *)
Definition is_model `{PyTypes} (v : value) : bool :=
  match v with
  | VModel _ => true
  | _ => false
  end.

(** Library functions the module calls: [pickle.dumps] / [pickle.loads] on
    the pair [(eP, eO)], [db.model_to_protobuf] / [db.model_from_protobuf]
    ([None] when the library raises), [hashlib.md5(...).hexdigest()] (a
    digest in hexadecimal is never the empty string: the class gives its
    first character and the characters after it), [datetime.strftime] with
    the module's format string, and the output of a [SimpleCookie] holding
    one [sid] morsel with its path and expiry. *)
Class Platform `{PyTypes} := {
  pickle_dumps : gmap string protobuf * gmap string value → pdump;
  pickle_loads : pdump → option (gmap string protobuf * gmap string value);
  model_to_protobuf : model → protobuf;
  model_from_protobuf : protobuf → option model;
  md5_hexdigest_head : list Byte.byte → ascii;
  md5_hexdigest_tail : list Byte.byte → string;
  strftime : datetime → string;
  cookie_output : string → string → string → string;
}.

(** [hashlib.md5(b).hexdigest()] *)
Definition md5_hexdigest `{Platform} (b : list Byte.byte) : string :=
  String (md5_hexdigest_head b) (md5_hexdigest_tail b).

Section Model.

Context `{Platform}.

(** ** The codec: [__encode_data] and [__decode_data] *)

(** One turn of the loop of [__encode_data]. *)
Definition encode_step (k : string) (v : value)
    (acc : gmap string protobuf * gmap string value)
    : gmap string protobuf * gmap string value :=
  match v with
  | VModel m => (<[k := model_to_protobuf m]> acc.1, acc.2)
  | _ => (acc.1, <[k := v]> acc.2)
  end.

Definition encode_split (d : gmap string value)
    : gmap string protobuf * gmap string value :=
  map_fold encode_step (∅, ∅) d.

Definition __encode_data (d : gmap string value) : pdump :=
  pickle_dumps (encode_split d).

(** One turn of the loop of [__decode_data]; [None] is a raised exception. *)
Definition decode_step (k : string) (v : protobuf)
    (acc : option (gmap string value)) : option (gmap string value) :=
  eO ← acc;
  m ← model_from_protobuf v;
  Some (<[k := VModel m]> eO).

Definition __decode_data (p : pdump) : option (gmap string value) :=
  '(eP, eO) ← pickle_loads p;
  map_fold decode_step (Some eO) eP.

(** ** The session object and the services around it *)

(** The attributes [Session] ever assigns.  [sid] and [cookie_header_data]
    exist from the first lines of [__init__] and hold a string or Python's
    [None]; for [data], [dirty] and [db_key] the outer [None] says that the
    attribute does not exist (never assigned, or removed by [del]).  The
    datastore holds [SessionModel] entities only, so a key is its name. *)
Record Session := mkSession {
  sid : option string;
  cookie_header_data : option string;
  data : option (gmap string value);
  dirty : option bool;
  db_key : option string;
}.

(** Calls that leave the process, in the order they were made. *)
Inductive event :=
  | EvEncode (d : gmap string value)
  | EvMemcacheGet (k : string)
  | EvMemcacheSet (k : string) (v : pdump) (ok : bool)
  | EvMemcacheDelete (k : string)
  | EvDbGet (k : string)
  | EvDbPut (k : string) (v : pdump) (r : put_outcome)
  | EvDbDelete (k : string)
  | EvLog (lvl : level) (msg : string).

(** The world outside the session: both storage tiers, the answers the
    services will give ([tick] counts the answers taken so far: whether a
    [memcache.set] is accepted, how a [put] ends, what [os.urandom] and
    [datetime.now] return), and the history of calls. *)
Record Env := mkEnv {
  memcache : gmap string pdump;
  datastore : gmap string pdump;
  tick : nat;
  mc_set_ok : nat → bool;
  put_result : nat → put_outcome;
  urandom : nat → list Byte.byte;
  clock : nat → datetime;
  trace : list event;
}.

Definition emit (ev : event) (e : Env) : Env :=
  mkEnv (memcache e) (datastore e) (tick e) (mc_set_ok e) (put_result e)
        (urandom e) (clock e) (trace e ++ [ev]).

Definition next_tick (e : Env) : Env :=
  mkEnv (memcache e) (datastore e) (S (tick e)) (mc_set_ok e) (put_result e)
        (urandom e) (clock e) (trace e).

Definition with_memcache (m : gmap string pdump) (e : Env) : Env :=
  mkEnv m (datastore e) (tick e) (mc_set_ok e) (put_result e)
        (urandom e) (clock e) (trace e).

Definition with_datastore (m : gmap string pdump) (e : Env) : Env :=
  mkEnv (memcache e) m (tick e) (mc_set_ok e) (put_result e)
        (urandom e) (clock e) (trace e).

(** ** State and exceptions *)

Definition M (A : Type) : Type := Session * Env → outcome A * (Session * Env).

Definition ret {A} (a : A) : M A := λ st, (Ret a, st).

Definition raise {A} (x : exn) : M A := λ st, (Raise x, st).

Definition bind {A B} (m : M A) (k : A → M B) : M B :=
  λ st, match m st with
        | (Ret a, st') => k a st'
        | (Raise x, st') => (Raise x, st')
        end.

(** [try: m  except ...: h]: [h x] is [None] when no clause matches [x]. *)
Definition try_except {A} (m : M A) (h : exn → option (M A)) : M A :=
  λ st, match m st with
        | (Ret a, st') => (Ret a, st')
        | (Raise x, st') =>
            match h x with
            | Some k => k st'
            | None => (Raise x, st')
            end
        end.

End Model.

Declare Scope py_scope.
Delimit Scope py_scope with py.
Notation "'let*' x ':=' m 'in' k" := (bind m (λ x, k))
  (at level 10, x name, m at level 100, k at level 200) : py_scope.
Notation "m ';;' k" := (bind m (λ _, k))
  (at level 100, k at level 200, right associativity) : py_scope.

Section Methods.

Context `{Platform}.
Local Open Scope py_scope.

(** ** Attribute access *)

Definition get_sid : M (option string) := λ st, (Ret (sid st.1), st).
Definition get_cookie_header_data : M (option string) :=
  λ st, (Ret (cookie_header_data st.1), st).

(** Reading an attribute that does not exist raises [AttributeError]. *)
Definition getattr {A} (name : string) (field : Session → option A) : M A :=
  λ st, match field st.1 with
        | Some a => (Ret a, st)
        | None => (Raise (AttributeError name), st)
        end.

Definition get_data : M (gmap string value) := getattr "data" data.
Definition get_dirty : M bool := getattr "dirty" dirty.
Definition get_db_key : M string := getattr "db_key" db_key.

(** [self.key]: the class defines no [key] and its methods assign [sid],
    [cookie_header_data], [data], [dirty] and [db_key] only, so the lookup
    fails. *)
Definition get_key : M string := raise (AttributeError "key").

Definition put_sid (v : option string) : M unit :=
  λ '(s, e), (Ret tt, (mkSession v (cookie_header_data s) (data s) (dirty s) (db_key s), e)).
Definition put_cookie_header_data (v : option string) : M unit :=
  λ '(s, e), (Ret tt, (mkSession (sid s) v (data s) (dirty s) (db_key s), e)).
Definition put_data (v : option (gmap string value)) : M unit :=
  λ '(s, e), (Ret tt, (mkSession (sid s) (cookie_header_data s) v (dirty s) (db_key s), e)).
Definition put_dirty (v : option bool) : M unit :=
  λ '(s, e), (Ret tt, (mkSession (sid s) (cookie_header_data s) (data s) v (db_key s), e)).
Definition put_db_key (v : option string) : M unit :=
  λ '(s, e), (Ret tt, (mkSession (sid s) (cookie_header_data s) (data s) (dirty s) v, e)).

(** [del self.<name>] *)
Definition delattr {A} (name : string) (field : Session → option A)
    (put : option A → M unit) : M unit :=
  let* _ := getattr name field in put None.

(** [del self.cookie_header]: no attribute of that name is ever assigned
    (the cookie lives in [cookie_header_data]). *)
Definition del_cookie_header : M unit := raise (AttributeError "cookie_header").

(** ** The services *)

Definition memcache_get (k : string) : M (option pdump) :=
  λ '(s, e), (Ret (memcache e !! k), (s, emit (EvMemcacheGet k) e)).

(** [memcache.set] returns whether the cache took the value. *)
Definition memcache_set (k : string) (v : pdump) : M bool :=
  λ '(s, e),
    let ok := mc_set_ok e (tick e) in
    let e1 := if ok then with_memcache (<[k := v]> (memcache e)) e else e in
    (Ret ok, (s, emit (EvMemcacheSet k v ok) (next_tick e1))).

Definition memcache_delete (k : string) : M unit :=
  λ '(s, e), (Ret tt, (s, emit (EvMemcacheDelete k) (with_memcache (delete k (memcache e)) e))).

Definition db_get (k : string) : M (option pdump) :=
  λ '(s, e), (Ret (datastore e !! k), (s, emit (EvDbGet k) e)).

Definition db_delete (k : string) : M unit :=
  λ '(s, e), (Ret tt, (s, emit (EvDbDelete k) (with_datastore (delete k (datastore e)) e))).

(** [SessionModel(key_name=k, pdump=v).put()] *)
Definition SessionModel_put (k : string) (v : pdump) : M unit :=
  λ '(s, e),
    let r := put_result e (tick e) in
    let e1 := next_tick e in
    match r with
    | PutOk => (Ret tt, (s, emit (EvDbPut k v r) (with_datastore (<[k := v]> (datastore e1)) e1)))
    | PutTransactionFailed => (Raise TransactionFailedError, (s, emit (EvDbPut k v r) e1))
    | PutCapabilityDisabled => (Raise CapabilityDisabledError, (s, emit (EvDbPut k v r) e1))
    | PutOtherError => (Raise DbError, (s, emit (EvDbPut k v r) e1))
    end.

Definition os_urandom : M (list Byte.byte) :=
  λ '(s, e), (Ret (urandom e (tick e)), (s, next_tick e)).

Definition datetime_now : M datetime :=
  λ '(s, e), (Ret (clock e (tick e)), (s, next_tick e)).

Definition logging (lvl : level) (msg : string) : M unit :=
  λ '(s, e), (Ret tt, (s, emit (EvLog lvl msg) e)).

(** ["%s" % self.sid] *)
Definition str_sid (o : option string) : string :=
  match o with
  | Some s => s
  | None => "None"
  end.

(** A service call that takes [self.sid] as its key wants a string. *)
Definition key_of_sid (o : option string) : M string :=
  match o with
  | Some s => ret s
  | None => raise TypeError
  end.

(** [db.Key.from_path(SessionModel.kind(), name)]: the datastore refuses
    the empty string as the name of a key. *)
Definition Key_from_path (name : string) : M string :=
  match name with
  | "" => raise BadValueError
  | String _ _ => ret name
  end.

(** [ex.strftime(...)] on the value stored under ['expiration']. *)
Definition value_strftime (v : value) : M string :=
  match v with
  | VDatetime t => ret (strftime t)
  | _ => raise (AttributeError "strftime")
  end.

(** ** Methods of [Session] *)

Definition __make_sid : M string :=
  let* r := os_urandom in ret (md5_hexdigest r).

Definition encode_data (d : gmap string value) : M pdump :=
  λ '(s, e), (Ret (__encode_data d), (s, emit (EvEncode d) e)).

Definition decode_data (p : pdump) : M (gmap string value) :=
  match __decode_data p with
  | Some d => ret d
  | None => raise UnpicklingError
  end.

Definition __clear_data : M unit :=
  let* k := get_key in
  memcache_delete k;;
  let* dk := get_db_key in
  db_delete dk.

Definition __set_sid (new_sid : string) (make_cookie : bool) : M unit :=
  let* old := get_sid in
  (if truthy old then __clear_data else ret tt);;
  put_sid (Some new_sid);;
  let* key := Key_from_path new_sid in
  put_db_key (Some key);;
  if negb make_cookie then ret tt else
  let* d := get_data in
  let* ex := match d !! "expiration" with
             | Some v => ret v
             | None => raise (KeyError "expiration")
             end in
  let* expires := value_strftime ex in
  put_cookie_header_data (Some (cookie_output new_sid COOKIE_PATH expires)).

Definition __retrieve_data : M (gmap string value) :=
  let* s := get_sid in
  let* k := key_of_sid s in
  let* cached := memcache_get k in
  match cached with
  | Some p => decode_data p
  | None =>
      let* dk := get_db_key in
      let* session_model_instance := db_get dk in
      match session_model_instance with
      | Some p => decode_data p
      | None =>
          logging LError ("can't find session data in the datastore for sid=" ++ str_sid s);;
          ret ∅
      end
  end.

(** [Session()]: [cookie_sid] is the value of the [sid] cookie of the
    request, [None] when reading it raises [CookieError] or [KeyError]. *)
Definition blank : Session := mkSession None None None None None.

Definition __init__ (cookie_sid : option string) : M unit :=
  put_sid None;;
  put_cookie_header_data None;;
  match cookie_sid with
  | None => put_data (Some ∅)
  | Some v =>
      __set_sid v false;;
      put_dirty (Some false);;
      let* d := __retrieve_data in
      put_data (Some d)
  end.

Definition user_is_now_logged_in : M unit :=
  let* new := __make_sid in
  __set_sid new true;;
  put_dirty (Some true).

(** [self.data[k] = v] *)
Definition data_setitem (k : string) (v : value) : M unit :=
  let* d := get_data in put_data (Some (<[k := v]> d)).

Definition start (expiration : option datetime) : M unit :=
  put_dirty (Some true);;
  put_data (Some ∅);;
  let* ex := match expiration with
             | Some t => ret t
             | None => let* now := datetime_now in ret (now + COOKIE_LIFETIME)%Z
             end in
  data_setitem "expiration" (VDatetime ex);;
  let* new := __make_sid in
  __set_sid new true.

Definition terminate : M unit :=
  __clear_data;;
  put_sid None;;
  delattr "dirty" dirty put_dirty;;
  delattr "data" data put_data;;
  del_cookie_header.

(** Of the two [except] clauses round the [put], the first is
    [db.TransactionFailedError].  The second names
    [db.CapabilityDisabledError], which the [db] module does not have (the
    exception of that name belongs to the API proxy): when the first clause
    does not match, looking the name up raises [AttributeError], whatever
    the [put] had raised, and that leaves [save]. *)
Definition save (only_if_changed : bool) : M unit :=
  let* s := get_sid in
  if negb (truthy s) then ret tt else
  let* unchanged := if only_if_changed
                    then let* d := get_dirty in ret (negb d)
                    else ret false in
  if unchanged then ret tt else
  let* d := get_data in
  let* p := encode_data d in
  let* k := key_of_sid s in
  let* mc_ok := memcache_set k p in
  try_except (SessionModel_put k p)
    (λ x, match x with
          | TransactionFailedError =>
              Some (logging LWarning
                      ("unable to persist session to datastore for sid=" ++ str_sid s))
          | _ => Some (raise (AttributeError "CapabilityDisabledError"))
          end);;
  if negb mc_ok then (let* _ := memcache_set k p in ret tt) else ret tt.

Definition get_cookie_out : M (option string) :=
  let* c := get_cookie_header_data in
  if truthy c then
    put_cookie_header_data None;;
    ret c
  else ret None.

(** ** The dictionary interface *)

Definition get (key : string) (default : option value) : M (option value) :=
  let* d := get_data in
  ret (match d !! key with
       | Some v => Some v
       | None => default
       end).

Definition __getitem__ (key : string) : M value :=
  let* d := get_data in
  match d !! key with
  | Some v => ret v
  | None => raise (KeyError key)
  end.

Definition __setitem__ (key : string) (v : value) : M unit :=
  let* s := get_sid in
  (if negb (truthy s) then start None else ret tt);;
  data_setitem key v;;
  put_dirty (Some true).

Definition __delitem__ (key : string) : M unit :=
  if String.eqb key "expiration" then
    raise (KeyError "expiration may not be removed")
  else
    let* d := get_data in
    match d !! key with
    | Some _ => put_data (Some (delete key d))
    | None => raise (KeyError key)
    end;;
    put_dirty (Some true).

Definition __iter__ : M (list string) :=
  let* d := get_data in ret (map_to_list d).*1.

Definition __contains__ (key : string) : M bool :=
  let* d := get_data in ret (bool_decide (is_Some (d !! key))).

End Methods.

(** ** Replaying handler code *)

Section Handler.

Context `{Platform}.

(** What request-handling code can do through the dictionary interface. *)
Inductive mapping_op :=
  | OpGet (key : string) (default : option value)
  | OpGetItem (key : string)
  | OpSetItem (key : string) (v : value)
  | OpDelItem (key : string)
  | OpIter
  | OpContains (key : string).

(** The state an operation leaves, whether it returned or raised. *)
Definition run_op (op : mapping_op) (st : Session * Env) : Session * Env :=
  match op with
  | OpGet k dflt => (get k dflt st).2
  | OpGetItem k => (__getitem__ k st).2
  | OpSetItem k v => (__setitem__ k v st).2
  | OpDelItem k => (__delitem__ k st).2
  | OpIter => (__iter__ st).2
  | OpContains k => (__contains__ k st).2
  end.

Definition run_ops (ops : list mapping_op) (st : Session * Env) : Session * Env :=
  foldl (λ acc op, run_op op acc) st ops.

(** [get_cookie_out] called [n] times in a row: the values returned, oldest
    first, and the final state. *)
Fixpoint get_cookie_out_times (n : nat) (st : Session * Env)
    : list (outcome (option string)) * (Session * Env) :=
  match n with
  | O => ([], st)
  | S n' =>
      let r := get_cookie_out st in
      let rest := get_cookie_out_times n' r.2 in
      (r.1 :: rest.1, rest.2)
  end.

(** ['expiration' in self.data] *)
Definition has_expiration (s : Session) : Prop :=
  ∃ d, data s = Some d ∧ is_Some (d !! "expiration").

End Handler.

(** ** The WSGI middleware *)

Section Middleware.

Context `{Platform}.
Local Open Scope py_scope.

(** [Session()] as [SessionMiddleware.__call__] evaluates it: a new object,
    whatever session the previous request left in the global. *)
Definition Session_new (cookie_sid : option string) : M unit :=
  λ st, __init__ cookie_sid (blank, st.2).

(** The module keeps the object in [_current_session]; it is the session
    component of the state. *)
Definition get_current_session : M Session := λ st, (Ret st.1, st).

(** The hook handed to the application.  Its result stands for the call of
    the server's [start_response]: the headers that call receives. *)
Definition my_start_response (headers : list (string * string))
    : M (list (string * string)) :=
  let* cookie_out := get_cookie_out in
  let headers :=
    match cookie_out with
    | Some c => if truthy cookie_out then (headers ++ [("Set-Cookie", c)])%list else headers
    | None => headers
    end in
  save true;;
  ret headers.

(** [SessionMiddleware.__call__]: the application is given the hook and
    does with it what it wants. *)
Definition __call__ {A} (cookie_sid : option string)
    (app : (list (string * string) → M (list (string * string))) → M A) : M A :=
  Session_new cookie_sid;;
  app my_start_response.

End Middleware.

(** ** A small platform to run the methods on

    Opaque values are integers, a model instance is the number of its
    entity, its protocol buffer the successor of that number (so [0] is a
    malformed buffer), and a pickle lists the entries of both dictionaries. *)

Module Concrete.

Inductive wire :=
  | WDatetime (t : Z)
  | WOpaque (o : Z)
  | WModel (m : nat).

#[export] Instance types : PyTypes := {|
  opaque := Z;
  model := nat;
  protobuf := nat;
  pdump := list (string * nat) * list (string * wire);
|}.

Definition to_wire (v : value) : wire :=
  match v with
  | VDatetime t => WDatetime t
  | VOpaque o => WOpaque o
  | VModel m => WModel m
  end.

Definition of_wire (w : wire) : value :=
  match w with
  | WDatetime t => VDatetime t
  | WOpaque o => VOpaque o
  | WModel m => VModel m
  end.

Definition dumps (t : gmap string nat * gmap string value)
    : list (string * nat) * list (string * wire) :=
  (map_to_list t.1, map_to_list (to_wire <$> t.2)).

Definition loads (p : list (string * nat) * list (string * wire))
    : option (gmap string nat * gmap string value) :=
  Some (list_to_map p.1, of_wire <$> (list_to_map p.2 : gmap string wire)).

Definition from_protobuf (pb : nat) : option nat :=
  match pb with
  | O => None
  | S m => Some m
  end.

Definition hex_digit (n : N) : ascii :=
  match n with
  | 0 => "0" | 1 => "1" | 2 => "2" | 3 => "3" | 4 => "4" | 5 => "5"
  | 6 => "6" | 7 => "7" | 8 => "8" | 9 => "9" | 10 => "a" | 11 => "b"
  | 12 => "c" | 13 => "d" | 14 => "e" | _ => "f"
  end%N%char.

(** Two hexadecimal digits for each of the first [n] bytes (zero when the
    input is shorter): a digest long enough, but not MD5. *)
Fixpoint hexdigest (n : nat) (l : list Byte.byte) : string :=
  match n with
  | O => ""
  | S n' =>
      let b := Byte.to_N (hd Byte.x00 l) in
      String (hex_digit (b / 16)) (String (hex_digit (b mod 16)) (hexdigest n' (tl l)))
  end.

#[export] Instance platform : Platform := {|
  pickle_dumps := dumps;
  pickle_loads := loads;
  model_to_protobuf := S;
  model_from_protobuf := from_protobuf;
  md5_hexdigest_head := λ l, hex_digit (Byte.to_N (hd Byte.x00 l) / 16);
  md5_hexdigest_tail := λ l,
    String (hex_digit (Byte.to_N (hd Byte.x00 l) mod 16)) (hexdigest 15 (tl l));
  strftime := λ t, pretty t;
  cookie_output := λ sid path expires,
    " sid=" ++ sid ++ "; expires=" ++ expires ++ "; Path=" ++ path;
|}.

(** Services that work: every [memcache.set] is accepted, every [put]
    succeeds, the [n]-th answer of [os.urandom] is [n+1] bytes long, the
    clock stands at [1000]. *)
Definition env0 : Env := {|
  memcache := ∅;
  datastore := ∅;
  tick := 0;
  mc_set_ok := λ _, true;
  put_result := λ _, PutOk;
  urandom := λ n, replicate (S n) Byte.x2a;
  clock := λ _, 1000%Z;
  trace := [];
|}.

(** A session as [__init__] leaves it when the request has no cookie. *)
Definition unstarted : Session := {|
  sid := None;
  cookie_header_data := None;
  data := Some ∅;
  dirty := None;
  db_key := None;
|}.

Definition payload1 : gmap string value :=
  <["user" := VModel 7%nat]> (<["cart" := VOpaque 3%Z]> {["expiration" := VDatetime 5000%Z]}).

(** A session loaded from the cookie [sid=abc]. *)
Definition active : Session := {|
  sid := Some "abc";
  cookie_header_data := None;
  data := Some payload1;
  dirty := Some false;
  db_key := Some "abc";
|}.

(** The same session after handler code changed it. *)
Definition active_dirty : Session := {|
  sid := Some "abc";
  cookie_header_data := None;
  data := Some payload1;
  dirty := Some true;
  db_key := Some "abc";
|}.

(** Memcache has lost the session, the datastore still has it. *)
Definition env_evicted : Env := {|
  memcache := ∅;
  datastore := {["abc" := __encode_data payload1]};
  tick := 0;
  mc_set_ok := λ _, true;
  put_result := λ _, PutOk;
  urandom := λ n, replicate (S n) Byte.x2a;
  clock := λ _, 1000%Z;
  trace := [];
|}.

(** Memcache refuses the first [set] and takes the later ones; every [put]
    fails with [TransactionFailedError]. *)
Definition env_flaky : Env := {|
  memcache := ∅;
  datastore := ∅;
  tick := 0;
  mc_set_ok := λ n, match n with O => false | S _ => true end;
  put_result := λ _, PutTransactionFailed;
  urandom := λ n, replicate (S n) Byte.x2a;
  clock := λ _, 1000%Z;
  trace := [];
|}.

(** Memcache refuses the first [set] and takes the later ones; datastore
    writes are disabled, so every [put] fails with
    [CapabilityDisabledError]. *)
Definition env_disabled : Env := {|
  memcache := ∅;
  datastore := ∅;
  tick := 0;
  mc_set_ok := λ n, match n with O => false | S _ => true end;
  put_result := λ _, PutCapabilityDisabled;
  urandom := λ n, replicate (S n) Byte.x2a;
  clock := λ _, 1000%Z;
  trace := [];
|}.

(** Handler code that deletes a key, overwrites the expiry and then tries
    to delete it. *)
Definition handler1 : list mapping_op :=
  [OpDelItem "cart"; OpSetItem "expiration" (VOpaque 0%Z); OpDelItem "expiration";
   OpGetItem "expiration"; OpIter].

End Concrete.

(** More sample data on the small platform. *)

Module Samples.

Import Concrete.

(** Another visitor's session, changed by handler code. *)
Definition other_dirty : Session := {|
  sid := Some "xyz";
  cookie_header_data := None;
  data := Some {["expiration" := VDatetime 7000%Z]};
  dirty := Some true;
  db_key := Some "xyz";
|}.

(** A pickle whose protocol buffer for ["user"] is malformed. *)
Definition bad_pdump : pdump := ([("user", 0%nat)], [("cart", WOpaque 3%Z)]).

(** An application that writes one key and then starts the response. *)
Definition cart_app
    (start_response : list (string * string) → M (list (string * string)))
    : M (list (string * string)) :=
  bind (__setitem__ "cart" (VOpaque 3%Z))
       (λ _, start_response [("Content-Type", "text/html")]).

End Samples.

(** * Properties *)

Section Codec.

Context `{Platform}.

Hypothesis pickle_roundtrip : ∀ t, pickle_loads (pickle_dumps t) = Some t.
Hypothesis protobuf_roundtrip :
  ∀ m, model_from_protobuf (model_to_protobuf m) = Some m.

(** The loop of [__encode_data] sends every model to [eP], as its protocol
    buffer, and every other value to [eO]. *)
Lemma encode_split_lookup (d : gmap string value) (k : string) :
  (encode_split d).1 !! k
    = (d !! k ≫= λ v, match v with VModel m => Some (model_to_protobuf m) | _ => None end)
  ∧ (encode_split d).2 !! k
    = (d !! k ≫= λ v, if is_model v then None else Some v).
Proof.
  unfold encode_split.
  apply (map_fold_weak_ind (λ acc m,
    acc.1 !! k = (m !! k ≫= λ v, match v with VModel m => Some (model_to_protobuf m) | _ => None end)
    ∧ acc.2 !! k = (m !! k ≫= λ v, if is_model v then None else Some v))).
  - by rewrite !lookup_empty.
  - intros i x m r Hi [IH1 IH2].
    destruct (decide (i = k)) as [->|Hne].
    + rewrite lookup_insert_eq. rewrite Hi in IH1, IH2. simpl in *.
      destruct x; simpl; rewrite ?lookup_insert_eq; auto.
    + rewrite lookup_insert_ne by done.
      destruct x; simpl; rewrite ?lookup_insert_ne by done; auto.
Qed.

(** The loop of [__decode_data] overwrites [eO] with the decoded models. *)
Lemma decode_fold_lookup (eP : gmap string protobuf) (eO : gmap string value) :
  (∀ k pb, eP !! k = Some pb → is_Some (model_from_protobuf pb)) →
  ∃ r, map_fold decode_step (Some eO) eP = Some r
       ∧ ∀ k, r !! k = match eP !! k with
                       | Some pb => VModel <$> model_from_protobuf pb
                       | None => eO !! k
                       end.
Proof.
  apply (map_fold_weak_ind (λ acc m,
    (∀ k pb, m !! k = Some pb → is_Some (model_from_protobuf pb)) →
    ∃ r, acc = Some r
         ∧ ∀ k, r !! k = match m !! k with
                         | Some pb => VModel <$> model_from_protobuf pb
                         | None => eO !! k
                         end)).
  - intros _. exists eO. split; [done|]. intros k. by rewrite lookup_empty.
  - intros i x m acc Hi IH Hall.
    destruct IH as (r & -> & Hr).
    { intros k pb Hk. apply (Hall k). rewrite lookup_insert_ne; [done|].
      intros ->. congruence. }
    destruct (Hall i x) as [mo Hmo]; [by rewrite lookup_insert_eq|].
    exists (<[i := VModel mo]> r). split.
    + unfold decode_step. simpl. by rewrite Hmo.
    + intros k. destruct (decide (i = k)) as [->|Hne].
      * rewrite !lookup_insert_eq. by rewrite Hmo.
      * rewrite !lookup_insert_ne by done. apply Hr.
Qed.

(** C4. Round trip of the codec: for every payload, whatever mix of model
    instances and other values it holds, decoding the encoded payload gives
    the payload back, [__decode_data (__encode_data d) = d], as long as
    pickle and the protocol-buffer conversion round-trip themselves. *)
Theorem decode_encode_roundtrip (d : gmap string value) :
  __decode_data (__encode_data d) = Some d.
Proof.
  unfold __decode_data, __encode_data.
  rewrite pickle_roundtrip. simpl.
  destruct (encode_split d) as [eP eO] eqn:Hsplit.
  assert (Hlk : ∀ k,
    eP !! k = (d !! k ≫= λ v, match v with VModel m => Some (model_to_protobuf m) | _ => None end)
    ∧ eO !! k = (d !! k ≫= λ v, if is_model v then None else Some v)).
  { intros k. pose proof (encode_split_lookup d k) as Hk.
    by rewrite Hsplit in Hk. }
  destruct (decode_fold_lookup eP eO) as (r & -> & Hr).
  - intros k pb Hk. destruct (Hlk k) as [HP _]. rewrite Hk in HP.
    destruct (d !! k) as [[t|o|m]|]; simpl in HP; try discriminate.
    injection HP as ->. rewrite protobuf_roundtrip. eauto.
  - f_equal. apply map_eq. intros k. rewrite Hr.
    destruct (Hlk k) as [HP HO]. rewrite HP, HO.
    destruct (d !! k) as [[t|o|m]|]; simpl; try done.
    by rewrite protobuf_roundtrip.
Qed.

End Codec.


(** Unfolds the monad and the primitive reads and writes of a method. *)
Ltac run :=
  unfold get_data, get_dirty, get_db_key, get_key, key_of_sid in *;
  unfold delattr, getattr, get_sid, get_cookie_header_data,
    put_sid, put_cookie_header_data, put_data, put_dirty, put_db_key,
    logging, memcache_get, memcache_set, db_get,
    SessionModel_put, encode_data, os_urandom, datetime_now in *;
  unfold bind, ret, raise, try_except in *;
  simpl in *.

Section SessionProperties.

Context `{Platform}.
Local Open Scope py_scope.

(** C8. [save] with [only_if_changed] set does nothing when the session has
    no identifier or is not dirty: it returns, and the session, both storage
    tiers and the history of calls are what they were. *)
Theorem save_only_if_changed_noop (s : Session) (e : Env) :
  truthy (sid s) = false ∨ dirty s = Some false →
  save true (s, e) = (Ret tt, (s, e)).
Proof.
  intros Hcase. unfold save. run.
  destruct (truthy (sid s)) eqn:Hsid; simpl; [|done].
  destruct Hcase as [?|Hd]; [done|]. by rewrite Hd.
Qed.

(** Each reading operation returns or raises in the state it was called in. *)
Lemma get_state (st : Session * Env) (key : string) (default : option value) :
  (get key default st).2 = st.
Proof. unfold get. run. by destruct (data st.1). Qed.

Lemma getitem_state (st : Session * Env) (key : string) :
  (__getitem__ key st).2 = st.
Proof.
  unfold __getitem__. run.
  destruct (data st.1) as [d|]; simpl; [|done]. by destruct (d !! key).
Qed.

Lemma contains_state (st : Session * Env) (key : string) :
  (__contains__ key st).2 = st.
Proof. unfold __contains__. run. by destruct (data st.1). Qed.

Lemma iter_state (st : Session * Env) : (__iter__ st).2 = st.
Proof. unfold __iter__. run. by destruct (data st.1). Qed.

(** C10. The reading operations of the dictionary interface, [get],
    [session[key]], [key in session] and iteration over the keys, leave the
    whole state as it was (payload, identifier, dirty flag, pending cookie,
    and the services), also when they raise. *)
Theorem reads_leave_state_unchanged (st : Session * Env) (key : string)
    (default : option value) :
  (get key default st).2 = st
  ∧ (__getitem__ key st).2 = st
  ∧ (__contains__ key st).2 = st
  ∧ (__iter__ st).2 = st.
Proof.
  split; [apply get_state|].
  split; [apply getitem_state|].
  split; [apply contains_state|apply iter_state].
Qed.

(** A call without a pending cookie returns [None] and changes nothing. *)
Lemma get_cookie_out_not_pending (s : Session) (e : Env) :
  truthy (cookie_header_data s) = false →
  get_cookie_out (s, e) = (Ret None, (s, e)).
Proof. intros Hc. unfold get_cookie_out. run. by rewrite Hc. Qed.

Lemma get_cookie_out_times_not_pending (n : nat) (s : Session) (e : Env) :
  truthy (cookie_header_data s) = false →
  get_cookie_out_times n (s, e) = (replicate n (Ret None), (s, e)).
Proof.
  intros Hc. induction n as [|n IH]; [done|].
  simpl. rewrite get_cookie_out_not_pending by done. simpl. by rewrite IH.
Qed.

(** C9. [get_cookie_out] hands out a pending cookie header once: the first
    call returns it and clears it, a call with nothing pending returns
    [None] and changes nothing, and however many calls follow the first,
    each of them returns [None]. *)
Theorem get_cookie_out_exactly_once (s : Session) (e : Env) (n : nat) :
  let pending := truthy (cookie_header_data s) in
  let taken := mkSession (sid s) None (data s) (dirty s) (db_key s) in
  let after := if pending then (taken, e) else (s, e) in
  get_cookie_out (s, e)
    = (Ret (if pending then cookie_header_data s else None), after)
  ∧ get_cookie_out_times n after = (replicate n (Ret None), after).
Proof.
  simpl. destruct (truthy (cookie_header_data s)) eqn:Hc.
  - split.
    + unfold get_cookie_out. run. by rewrite Hc.
    + by apply get_cookie_out_times_not_pending.
  - split.
    + by apply get_cookie_out_not_pending.
    + by apply get_cookie_out_times_not_pending.
Qed.

(** Dictionary operations on a session that has an identifier leave the
    identifier and the cookie slot alone, so they cannot make a cookie
    pending again. *)
Lemma run_op_keeps_cookie (op : mapping_op) (st : Session * Env) :
  truthy (sid st.1) = true →
  sid (run_op op st).1 = sid st.1
  ∧ cookie_header_data (run_op op st).1 = cookie_header_data st.1.
Proof.
  destruct st as [s e]. simpl. intros Hsid.
  destruct op as [k dflt|k|k v|k| |k]; simpl.
  - by rewrite get_state.
  - by rewrite getitem_state.
  - unfold __setitem__, data_setitem. run. rewrite Hsid. simpl.
    by destruct (data s).
  - unfold __delitem__. destruct (String.eqb k "expiration"); [done|].
    run. destruct (data s) as [d|]; simpl; [|done]. by destruct (d !! k).
  - by rewrite iter_state.
  - by rewrite contains_state.
Qed.

Lemma run_ops_keeps_cookie (ops : list mapping_op) (st : Session * Env) :
  truthy (sid st.1) = true →
  sid (run_ops ops st).1 = sid st.1
  ∧ cookie_header_data (run_ops ops st).1 = cookie_header_data st.1.
Proof.
  revert st. induction ops as [|op ops IH]; intros st Hsid; [done|].
  simpl. destruct (run_op_keeps_cookie op st Hsid) as [Hs Hc].
  destruct (IH (run_op op st)) as [Hs' Hc']; [by rewrite Hs|].
  split; congruence.
Qed.

Lemma get_cookie_out_after_handler (ops : list mapping_op) (st : Session * Env) :
  truthy (sid st.1) = true →
  truthy (cookie_header_data st.1) = false →
  (get_cookie_out (run_ops ops st)).1 = Ret None.
Proof.
  intros Hsid Hc.
  destruct (run_ops_keeps_cookie ops st Hsid) as [_ Hkeep].
  destruct (run_ops ops st) as [s' e'] eqn:Hrun. simpl in Hkeep.
  rewrite get_cookie_out_not_pending; [done|]. by rewrite Hkeep.
Qed.

(** *** Starting a session *)

(** [start] on a session without identifier: it returns, with a fresh
    payload that holds the expiry only, a new identifier and its cookie. *)
Lemma start_without_sid (s : Session) (e : Env) (expiration : option datetime) :
  truthy (sid s) = false →
  let ex := match expiration with
            | Some t => t
            | None => (clock e (tick e) + COOKIE_LIFETIME)%Z
            end in
  let e1 := match expiration with
            | Some _ => e
            | None => next_tick e
            end in
  let new := md5_hexdigest (urandom e1 (tick e1)) in
  start expiration (s, e)
    = (Ret tt,
       (mkSession (Some new)
                  (Some (cookie_output new COOKIE_PATH (strftime ex)))
                  (Some {["expiration" := VDatetime ex]})
                  (Some true) (Some new),
        next_tick e1)).
Proof.
  intros Hsid. unfold start, __set_sid, __make_sid, data_setitem, value_strftime.
  destruct expiration as [t|]; run; rewrite Hsid; simpl;
    rewrite lookup_insert_eq; simpl; by rewrite insert_empty.
Qed.

(** Whatever the session was, and whether [start] returns or raises, the
    payload it leaves holds ['expiration']. *)
Lemma start_has_expiration (st : Session * Env) (expiration : option datetime) :
  has_expiration (start expiration st).2.1.
Proof.
  destruct st as [s e].
  destruct (truthy (sid s)) eqn:Hsid.
  - unfold start, __set_sid, __make_sid, __clear_data, data_setitem.
    destruct expiration as [t|]; run; rewrite Hsid; simpl;
      (eexists; split; [done|]); rewrite lookup_insert_eq; eauto.
  - rewrite start_without_sid by done. simpl.
    eexists; split; [done|]. rewrite lookup_singleton_eq. eauto.
Qed.

(** *** The protected key *)

Lemma delitem_expiration_raises (st : Session * Env) :
  __delitem__ "expiration" st
    = (Raise (KeyError "expiration may not be removed"), st).
Proof. done. Qed.

Lemma setitem_has_expiration (st : Session * Env) (k : string) (v : value) :
  has_expiration st.1 ∨ truthy (sid st.1) = false →
  has_expiration (__setitem__ k v st).2.1.
Proof.
  destruct st as [s e]. simpl. intros Hcase. unfold __setitem__.
  unfold bind at 1. unfold get_sid at 1. simpl.
  destruct (truthy (sid s)) eqn:Hsid; simpl.
  - destruct Hcase as [(d & Hd & Hex)|?]; [|congruence].
    unfold data_setitem. run. rewrite Hd. simpl.
    eexists; split; [done|].
    destruct (decide (k = "expiration")) as [->|Hne].
    + rewrite lookup_insert_eq. eauto.
    + by rewrite lookup_insert_ne.
  - unfold bind at 1. rewrite start_without_sid by done.
    unfold data_setitem. run.
    eexists; split; [done|].
    destruct (decide (k = "expiration")) as [->|Hne].
    + rewrite lookup_insert_eq. eauto.
    + rewrite lookup_insert_ne by done. rewrite lookup_singleton_eq. eauto.
Qed.

Lemma delitem_has_expiration (st : Session * Env) (k : string) :
  has_expiration st.1 → has_expiration (__delitem__ k st).2.1.
Proof.
  destruct st as [s e]. simpl. intros (d & Hd & Hex). unfold __delitem__.
  destruct (String.eqb k "expiration") eqn:Hk.
  - simpl. by exists d.
  - apply String.eqb_neq in Hk. run. rewrite Hd. simpl.
    destruct (d !! k); simpl.
    + eexists; split; [done|]. by rewrite lookup_delete_ne.
    + by exists d.
Qed.

Lemma run_op_has_expiration (op : mapping_op) (st : Session * Env) :
  has_expiration st.1 → has_expiration (run_op op st).1.
Proof.
  intros Hex. destruct op as [k dflt|k|k v|k| |k]; simpl.
  - by rewrite get_state.
  - by rewrite getitem_state.
  - apply setitem_has_expiration. by left.
  - by apply delitem_has_expiration.
  - by rewrite iter_state.
  - by rewrite contains_state.
Qed.

Lemma run_ops_has_expiration (ops : list mapping_op) (st : Session * Env) :
  has_expiration st.1 → has_expiration (run_ops ops st).1.
Proof.
  revert st. induction ops as [|op ops IH]; intros st Hex; [done|].
  simpl. apply IH. by apply run_op_has_expiration.
Qed.

(** C7. Once [start] has been called, directly or by a first write on a
    session without identifier, the payload holds ['expiration'], and it
    still does after any sequence of dictionary operations by handler code;
    [del session['expiration']] raises the protected-key error every time
    and changes nothing. *)
Theorem expiration_cannot_be_removed (st0 : Session * Env)
    (expiration : option datetime) (k : string) (v : value)
    (ops : list mapping_op) :
  let started := run_ops ops (start expiration st0).2 in
  let written := run_ops ops (__setitem__ k v st0).2 in
  (has_expiration started.1
   ∧ __delitem__ "expiration" started
       = (Raise (KeyError "expiration may not be removed"), started))
  ∧ (truthy (sid st0.1) = false →
     has_expiration written.1
     ∧ __delitem__ "expiration" written
         = (Raise (KeyError "expiration may not be removed"), written)).
Proof.
  simpl. split.
  - split; [|apply delitem_expiration_raises].
    apply run_ops_has_expiration, start_has_expiration.
  - intros Hsid. split; [|apply delitem_expiration_raises].
    apply run_ops_has_expiration, setitem_has_expiration. by right.
Qed.

(** *** Dropping the stored session *)

(** [__clear_data] reads [self.key] first, an attribute that does not
    exist: it raises before it reaches either storage tier. *)
Lemma clear_data_raises (st : Session * Env) :
  __clear_data st = (Raise (AttributeError "key"), st).
Proof. done. Qed.

(** C3 (as the code behaves). On a session that has an identifier,
    [user_is_now_logged_in] raises [AttributeError]: the identifier, the
    payload, the dirty flag, the cookie and both storage tiers stay as they
    were; only the random bytes for the new identifier have been drawn. *)
Theorem user_is_now_logged_in_raises (s : Session) (e : Env) :
  truthy (sid s) = true →
  user_is_now_logged_in (s, e) = (Raise (AttributeError "key"), (s, next_tick e)).
Proof.
  intros Hsid. unfold user_is_now_logged_in, __set_sid, __make_sid, __clear_data.
  run. by rewrite Hsid.
Qed.

(** C6 (as the code behaves). [terminate] raises [AttributeError] on every
    session, before it touches the session or either storage tier. *)
Theorem terminate_raises (st : Session * Env) :
  terminate st = (Raise (AttributeError "key"), st).
Proof. done. Qed.

(** *** Saving *)

(** C1 (as the code behaves). [save] on a started, dirty session whose
    [put] fails with [CapabilityDisabledError], or with any error but
    [TransactionFailedError]: after the pickling, the first [memcache.set]
    and the [put], the caller gets [AttributeError] for the name
    [CapabilityDisabledError].  Nothing is logged and no second
    [memcache.set] follows, also when memcache had refused the first: the
    history of calls ends with the [put], memcache holds the bytes only if
    it took the first [set], and the datastore is as before. *)
Theorem save_put_error_raises (s : Session) (e : Env) (only_if_changed : bool)
    (i : string) (d : gmap string value) :
  sid s = Some i →
  truthy (sid s) = true →
  dirty s = Some true →
  data s = Some d →
  put_result e (S (tick e)) = PutCapabilityDisabled
  ∨ put_result e (S (tick e)) = PutOtherError →
  let p := __encode_data d in
  let ok1 := mc_set_ok e (tick e) in
  let r := put_result e (S (tick e)) in
  ∃ e', save only_if_changed (s, e)
        = (Raise (AttributeError "CapabilityDisabledError"), (s, e'))
    ∧ trace e' = (trace e ++ [EvEncode d; EvMemcacheSet i p ok1; EvDbPut i p r])%list
    ∧ memcache e' = (if ok1 then <[i := p]> (memcache e) else memcache e)
    ∧ datastore e' = datastore e.
Proof.
  intros Hi Hsid Hdirty Hdata Hput. simpl.
  unfold save. run. rewrite Hsid. simpl.
  destruct only_if_changed; simpl; rewrite ?Hdirty; simpl;
    rewrite Hdata; simpl; rewrite Hi; simpl;
    destruct (mc_set_ok e (tick e)) eqn:Hok1; simpl;
    destruct Hput as [Hr|Hr]; rewrite Hr; simpl;
    eexists; (split; [reflexivity|]); simpl;
    rewrite <- ?app_assoc; done.
Qed.

(** *** Loading *)

Lemma decode_data_state (p : pdump) (st : Session * Env) :
  (decode_data p st).2 = st.
Proof. unfold decode_data. by destruct (__decode_data p). Qed.

(** C2 (amended). [__retrieve_data] on a session with an identifier asks
    memcache first and on a hit returns the decoded bytes; on a miss it
    reads the datastore by the same identifier and returns the decoded
    record when there is one, and an empty payload after logging an error
    when there is none.  It never writes to either tier: after a miss the
    cache is as empty as before, and the next load of the same identifier
    misses again and goes to the datastore again. *)
Theorem retrieve_data_reads_through (s : Session) (e : Env) (i : string) :
  sid s = Some i →
  db_key s = Some i →
  let e1 := emit (EvMemcacheGet i) e in
  let e2 := emit (EvDbGet i) e1 in
  let lost := ("can't find session data in the datastore for sid=" ++ i)%string in
  let loaded := __retrieve_data (s, e) in
  loaded
    = match memcache e !! i with
      | Some p => decode_data p (s, e1)
      | None =>
          match datastore e !! i with
          | Some p => decode_data p (s, e2)
          | None => (Ret ∅, (s, emit (EvLog LError lost) e2))
          end
      end
  ∧ memcache loaded.2.2 = memcache e
  ∧ datastore loaded.2.2 = datastore e
  ∧ (memcache e !! i = None → is_Some (datastore e !! i) →
     trace (__retrieve_data loaded.2).2.2
       = (trace e ++ [EvMemcacheGet i; EvDbGet i; EvMemcacheGet i; EvDbGet i])%list).
Proof.
  intros Hi Hk. simpl.
  assert (Hload : ∀ e0 : Env,
    __retrieve_data (s, e0)
    = match memcache e0 !! i with
      | Some p => decode_data p (s, emit (EvMemcacheGet i) e0)
      | None =>
          match datastore e0 !! i with
          | Some p => decode_data p (s, emit (EvDbGet i) (emit (EvMemcacheGet i) e0))
          | None =>
              (Ret ∅,
               (s, emit (EvLog LError
                           ("can't find session data in the datastore for sid=" ++ i)%string)
                     (emit (EvDbGet i) (emit (EvMemcacheGet i) e0))))
          end
      end).
  { intros e0. unfold __retrieve_data. run. rewrite Hi. simpl.
    destruct (memcache e0 !! i); [done|]. simpl. rewrite Hk. simpl.
    by destruct (datastore e0 !! i). }
  split; [apply Hload|].
  rewrite Hload.
  destruct (memcache e !! i) as [p|] eqn:Hmc.
  - pose proof (decode_data_state p (s, emit (EvMemcacheGet i) e)) as Hst.
    destruct (decode_data p _) as [o st']. simpl in Hst. subst st'.
    split; [done|]. split; [done|]. intros; congruence.
  - destruct (datastore e !! i) as [p|] eqn:Hdb.
    + pose proof (decode_data_state p (s, emit (EvDbGet i) (emit (EvMemcacheGet i) e))) as Hst.
      destruct (decode_data p _) as [o st']. simpl in Hst. subst st'.
      split; [done|]. split; [done|]. intros _ _. simpl.
      rewrite Hload. simpl. rewrite Hmc, Hdb.
      pose proof (decode_data_state p
        (s, emit (EvDbGet i) (emit (EvMemcacheGet i)
              (emit (EvDbGet i) (emit (EvMemcacheGet i) e))))) as Hst.
      destruct (decode_data p _) as [o' st']. simpl in Hst. subst st'.
      simpl. by rewrite <- !app_assoc.
    + split; [done|]. split; [done|]. by intros _ [? ?].
Qed.

(** *** The first write *)

Section FreshIdentifier.

Hypothesis md5_hexdigest_length :
  ∀ b, String.length (md5_hexdigest b) = 32%nat.
Hypothesis cookie_output_nonempty :
  ∀ i path expires, cookie_output i path expires ≠ "".

Lemma md5_hexdigest_truthy (b : list Byte.byte) :
  truthy (Some (md5_hexdigest b)) = true.
Proof.
  pose proof (md5_hexdigest_length b) as Hlen.
  by destruct (md5_hexdigest b).
Qed.

Lemma cookie_output_truthy (i path expires : string) :
  truthy (Some (cookie_output i path expires)) = true.
Proof.
  pose proof (cookie_output_nonempty i path expires) as Hne.
  by destruct (cookie_output i path expires).
Qed.

(** C5. [session[k] = v] on a session without identifier starts it first:
    afterwards the session has a newly drawn identifier, a pending cookie
    for it, a payload made of the expiry (now plus the cookie lifetime) and
    of [k] bound to [v], and the dirty flag set; nothing was written to
    either storage tier. *)
Theorem setitem_starts_session (s : Session) (e : Env) (k : string) (v : value) :
  truthy (sid s) = false →
  let ex := (clock e (tick e) + COOKIE_LIFETIME)%Z in
  let new := md5_hexdigest (urandom e (S (tick e))) in
  let header := cookie_output new COOKIE_PATH (strftime ex) in
  let payload := <[k := v]> ({["expiration" := VDatetime ex]} : gmap string value) in
  let s' := mkSession (Some new) (Some header) (Some payload) (Some true) (Some new) in
  __setitem__ k v (s, e) = (Ret tt, (s', next_tick (next_tick e)))
  ∧ truthy (sid s') = true
  ∧ truthy (cookie_header_data s') = true
  ∧ has_expiration s'
  ∧ payload !! k = Some v.
Proof.
  intros Hsid. simpl. split; [|split; [|split; [|split]]].
  - unfold __setitem__. unfold bind at 1. unfold get_sid at 1. simpl.
    rewrite Hsid. simpl. unfold bind at 1.
    rewrite start_without_sid by done.
    unfold data_setitem. by run.
  - exact (md5_hexdigest_truthy (urandom e (S (tick e)))).
  - apply cookie_output_truthy.
  - eexists; split; [done|].
    destruct (decide (k = "expiration")) as [->|Hne].
    + rewrite lookup_insert_eq. eauto.
    + rewrite lookup_insert_ne by done. rewrite lookup_singleton_eq. eauto.
  - apply lookup_insert_eq.
Qed.

End FreshIdentifier.

End SessionProperties.

(** * The methods at work on the small platform *)

Section Runs.

Import Concrete.

(** The small platform keeps the laws the properties above ask for. *)
Lemma concrete_pickle_roundtrip (t : gmap string protobuf * gmap string value) :
  pickle_loads (pickle_dumps t) = Some t.
Proof.
  destruct t as [eP eO]. simpl. unfold loads, dumps. simpl.
  rewrite !list_to_map_to_list. rewrite <- map_fmap_compose.
  rewrite (map_fmap_ext _ id); [by rewrite map_fmap_id|].
  by intros k [t|o|m] _.
Qed.

Lemma concrete_protobuf_roundtrip (m : model) :
  model_from_protobuf (model_to_protobuf m) = Some m.
Proof. done. Qed.

Lemma hexdigest_length (n : nat) (l : list Byte.byte) :
  String.length (hexdigest n l) = (2 * n)%nat.
Proof.
  revert l. induction n as [|n IH]; intros l; [done|].
  simpl. rewrite IH. lia.
Qed.

Lemma concrete_md5_hexdigest_length (b : list Byte.byte) :
  String.length (md5_hexdigest b) = 32%nat.
Proof. apply (hexdigest_length 16). Qed.

Lemma concrete_cookie_output_nonempty (i path expires : string) :
  cookie_output i path expires ≠ "".
Proof. done. Qed.

(** The sample sessions are what the constructor builds: without a cookie,
    and with the cookie [sid=abc] when memcache has lost the record. *)
Example init_without_cookie :
  __init__ None (blank, env0) = (Ret tt, (unstarted, env0)).
Proof. reflexivity. Qed.

Example init_with_cookie :
  __init__ (Some "abc") (blank, env_evicted)
    = (Ret tt,
       (active, emit (EvDbGet "abc") (emit (EvMemcacheGet "abc") env_evicted))).
Proof. vm_compute. reflexivity. Qed.

(** C1, at work: memcache refuses the first [set] and datastore writes are
    disabled; [save] raises, and the cache is left without the pickle. *)
Lemma save_put_error_raises_witness :
  put_result env_disabled 1 = PutCapabilityDisabled
  ∧ mc_set_ok env_disabled 0 = false
  ∧ ∃ e', save true (active_dirty, env_disabled)
          = (Raise (AttributeError "CapabilityDisabledError"), (active_dirty, e'))
          ∧ trace e'
            = [EvEncode payload1;
               EvMemcacheSet "abc" (__encode_data payload1) false;
               EvDbPut "abc" (__encode_data payload1) PutCapabilityDisabled]
          ∧ memcache e' = ∅
          ∧ datastore e' = ∅.
Proof.
  split; [reflexivity|]. split; [reflexivity|].
  destruct (save_put_error_raises active_dirty env_disabled true "abc" payload1)
    as (e' & Hrun & Htrace & Hmc & Hdb);
    [reflexivity|reflexivity|reflexivity|reflexivity|left; reflexivity|].
  exists e'. split; [exact Hrun|]. split; [|split].
  - rewrite Htrace. reflexivity.
  - rewrite Hmc. reflexivity.
  - rewrite Hdb. reflexivity.
Defined.

(** C2 as stated does not hold: with the record in the datastore only,
    a load returns the payload and leaves memcache without the record, so
    the load after it reads the datastore again; and with the record in
    neither tier, the message is logged as an error, not as a warning. *)
Lemma retrieve_data_does_not_repopulate :
  let first := __retrieve_data (active, env_evicted) in
  let second := __retrieve_data first.2 in
  memcache env_evicted !! "abc" = None
  ∧ datastore env_evicted !! "abc" = Some (__encode_data payload1)
  ∧ first.1 = Ret payload1
  ∧ memcache first.2.2 !! "abc" = None
  ∧ second.1 = Ret payload1
  ∧ trace second.2.2
    = [EvMemcacheGet "abc"; EvDbGet "abc"; EvMemcacheGet "abc"; EvDbGet "abc"]
  ∧ __retrieve_data (active, env0)
    = (Ret ∅,
       (active,
        emit (EvLog LError "can't find session data in the datastore for sid=abc")
          (emit (EvDbGet "abc") (emit (EvMemcacheGet "abc") env0)))).
Proof. vm_compute. repeat split. Qed.

(** C2 (amended), at work on the same services. *)
Lemma retrieve_data_reads_through_witness :
  sid active = Some "abc"
  ∧ db_key active = Some "abc"
  ∧ (__retrieve_data (active, env_evicted)).1 = Ret payload1
  ∧ memcache (__retrieve_data (active, env_evicted)).2.2 = ∅.
Proof.
  split; [reflexivity|]. split; [reflexivity|].
  destruct (retrieve_data_reads_through active env_evicted "abc")
    as (Hrun & Hmc & _); [reflexivity|reflexivity|].
  split.
  - rewrite Hrun. reflexivity.
  - exact Hmc.
Defined.

(** C3, at work: rotating the identifier of a loaded session raises. *)
Lemma user_is_now_logged_in_raises_witness :
  truthy (sid active) = true
  ∧ user_is_now_logged_in (active, env_evicted)
    = (Raise (AttributeError "key"), (active, next_tick env_evicted)).
Proof.
  split; [reflexivity|].
  apply (user_is_now_logged_in_raises active env_evicted). reflexivity.
Defined.

(** C4, at work: a payload with a datetime, an opaque value and a model. *)
Lemma decode_encode_roundtrip_witness :
  __decode_data (__encode_data payload1) = Some payload1.
Proof.
  apply decode_encode_roundtrip.
  - apply concrete_pickle_roundtrip.
  - apply concrete_protobuf_roundtrip.
Defined.

(** C5, at work: the first write of a request that came without cookie. *)
Lemma setitem_starts_session_witness :
  truthy (sid unstarted) = false
  ∧ ∃ st', __setitem__ "cart" (VOpaque 3%Z) (unstarted, env0) = (Ret tt, st')
           ∧ truthy (sid st'.1) = true
           ∧ truthy (cookie_header_data st'.1) = true
           ∧ has_expiration st'.1.
Proof.
  split; [reflexivity|].
  destruct (setitem_starts_session concrete_md5_hexdigest_length
              concrete_cookie_output_nonempty unstarted env0 "cart"
              (VOpaque (H:=types) 3%Z))
    as (Hrun & Hsid & Hcookie & Hex & _); [reflexivity|].
  eexists. split; [exact Hrun|]. split; [exact Hsid|]. split; [exact Hcookie|exact Hex].
Defined.

(** C7, at work: after a first write, handler code that overwrites the
    expiry and tries to delete it still leaves an ['expiration'] entry. *)
Lemma expiration_cannot_be_removed_witness :
  truthy (sid unstarted) = false
  ∧ has_expiration
      (run_ops handler1 (__setitem__ "cart" (VOpaque 3%Z) (unstarted, env0)).2).1.
Proof.
  split; [reflexivity|].
  destruct (expiration_cannot_be_removed (unstarted, env0) None "cart"
              (VOpaque (H:=types) 3%Z) handler1) as [_ Hwritten].
  destruct Hwritten as [Hex _]; [reflexivity|]. exact Hex.
Defined.

(** C8, at work: a loaded session that nobody changed is not saved. *)
Lemma save_only_if_changed_noop_witness :
  dirty active = Some false
  ∧ save true (active, env0) = (Ret tt, (active, env0)).
Proof.
  split; [reflexivity|].
  apply (save_only_if_changed_noop active env0). right. reflexivity.
Defined.

End Runs.

(** * Further properties of the module *)

Section MoreProperties.

Context `{Platform}.
Local Open Scope py_scope.

(** ** The dictionary interface *)

(** X1. On a session with a payload, iterating yields every key of the
    payload once; [key in session], [session[key]] and [get] agree with it:
    a key that is there is indexed and fetched with its value, a key that is
    not makes indexing raise [KeyError] for that key and [get] return the
    default. *)
Theorem reads_agree (s : Session) (e : Env) (d : gmap string value)
    (default : option value) :
  data s = Some d →
  ∃ keys, __iter__ (s, e) = (Ret keys, (s, e))
    ∧ NoDup keys
    ∧ ∀ k,
        (k ∈ keys ↔ is_Some (d !! k))
        ∧ (__contains__ k (s, e)).1 = Ret (bool_decide (k ∈ keys))
        ∧ (∀ v, d !! k = Some v →
             (__getitem__ k (s, e)).1 = Ret v
             ∧ (get k default (s, e)).1 = Ret (Some v))
        ∧ (d !! k = None →
             (__getitem__ k (s, e)).1 = Raise (KeyError k)
             ∧ (get k default (s, e)).1 = Ret default).
Proof.
  intros Hd. exists (map_to_list d).*1.
  split; [unfold __iter__; run; by rewrite Hd|].
  split; [apply NoDup_fst_map_to_list|].
  intros k.
  assert (Hin : k ∈ (map_to_list d).*1 ↔ is_Some (d !! k)).
  { rewrite list_elem_of_fmap. split.
    - intros ([k' v] & -> & Hkv). apply elem_of_map_to_list in Hkv. eauto.
    - intros [v Hv]. exists (k, v). split; [done|]. by apply elem_of_map_to_list. }
  split; [exact Hin|]. split; [|split].
  - unfold __contains__. run. rewrite Hd. simpl. f_equal.
    apply bool_decide_ext. by rewrite Hin.
  - intros v Hv. unfold __getitem__, get. run. rewrite Hd. simpl. by rewrite Hv.
  - intros Hnone. unfold __getitem__, get. run. rewrite Hd. simpl. by rewrite Hnone.
Qed.

(** [session[k] = v] in closed form, with and without an identifier. *)
Lemma setitem_started (s : Session) (e : Env) (d : gmap string value)
    (k : string) (v : value) :
  truthy (sid s) = true →
  data s = Some d →
  __setitem__ k v (s, e)
    = (Ret tt,
       (mkSession (sid s) (cookie_header_data s) (Some (<[k := v]> d))
                  (Some true) (db_key s), e)).
Proof.
  intros Hsid Hd. unfold __setitem__, data_setitem. run.
  rewrite Hsid. simpl. by rewrite Hd.
Qed.

Lemma setitem_unstarted (s : Session) (e : Env) (k : string) (v : value) :
  truthy (sid s) = false →
  let ex := (clock e (tick e) + COOKIE_LIFETIME)%Z in
  let new := md5_hexdigest (urandom e (S (tick e))) in
  __setitem__ k v (s, e)
    = (Ret tt,
       (mkSession (Some new)
                  (Some (cookie_output new COOKIE_PATH (strftime ex)))
                  (Some (<[k := v]> {["expiration" := VDatetime ex]}))
                  (Some true) (Some new),
        next_tick (next_tick e))).
Proof.
  intros Hsid. simpl. unfold __setitem__. unfold bind at 1.
  unfold get_sid at 1. simpl. rewrite Hsid. simpl. unfold bind at 1.
  rewrite start_without_sid by done. unfold data_setitem. by run.
Qed.

(** X2. What [session[k] = v] stores can be read back: on a session that
    has a payload or no identifier yet, the write returns, and afterwards
    [session[k]] is [v], [k in session] holds, [get] finds [v], and the
    session is dirty; on a session with an identifier every other key reads
    as before. *)
Theorem setitem_then_read (s : Session) (e : Env) (k : string) (v : value)
    (default : option value) :
  is_Some (data s) ∨ truthy (sid s) = false →
  let st' := (__setitem__ k v (s, e)).2 in
  (__setitem__ k v (s, e)).1 = Ret tt
  ∧ __getitem__ k st' = (Ret v, st')
  ∧ __contains__ k st' = (Ret true, st')
  ∧ get k default st' = (Ret (Some v), st')
  ∧ dirty st'.1 = Some true
  ∧ (truthy (sid s) = true →
     ∀ k', k' ≠ k → (__getitem__ k' st').1 = (__getitem__ k' (s, e)).1).
Proof.
  intros Hcase. simpl.
  assert (Hrun : ∃ d' s' e', __setitem__ k v (s, e) = (Ret tt, (s', e'))
                   ∧ data s' = Some (<[k := v]> d') ∧ dirty s' = Some true
                   ∧ (truthy (sid s) = true → data s = Some d')).
  { destruct (truthy (sid s)) eqn:Hsid.
    - destruct Hcase as [[d Hd]|?]; [|congruence].
      rewrite (setitem_started s e d k v Hsid Hd). by exists d; eexists; eexists.
    - rewrite (setitem_unstarted s e k v Hsid).
      eexists; eexists; eexists. by repeat split. }
  destruct Hrun as (d' & s' & e' & Hrun & Hd' & Hdirty & Hold).
  rewrite Hrun. simpl. split; [done|].
  unfold __getitem__, __contains__, get. run. rewrite Hd'. simpl.
  rewrite lookup_insert_eq. do 4 (split; [done|]).
  intros Hsid k' Hne. rewrite (Hold Hsid). simpl.
  rewrite lookup_insert_ne by done. by destruct (d' !! k').
Qed.

(** X3. [del session[k]] for a key other than ['expiration'], on a session
    with a payload: when the key is there it is removed (afterwards
    [k in session] is false and [session[k]] raises [KeyError]), the other
    keys read as before and the session is dirty; when the key is not there
    [KeyError] is raised and nothing changes, the dirty flag included. *)
Theorem delitem_removes_key (s : Session) (e : Env) (d : gmap string value)
    (k : string) :
  data s = Some d →
  k ≠ "expiration" →
  match d !! k with
  | Some _ =>
      let st' := (mkSession (sid s) (cookie_header_data s) (Some (delete k d))
                            (Some true) (db_key s), e) in
      __delitem__ k (s, e) = (Ret tt, st')
      ∧ __contains__ k st' = (Ret false, st')
      ∧ __getitem__ k st' = (Raise (KeyError k), st')
      ∧ ∀ k', k' ≠ k → (__getitem__ k' st').1 = (__getitem__ k' (s, e)).1
  | None => __delitem__ k (s, e) = (Raise (KeyError k), (s, e))
  end.
Proof.
  intros Hd Hk. apply String.eqb_neq in Hk.
  destruct (d !! k) as [v|] eqn:Hv.
  - simpl. split; [|split; [|split]].
    + unfold __delitem__. rewrite Hk. run. rewrite Hd. simpl. by rewrite Hv.
    + unfold __contains__. run. f_equal. f_equal.
      apply bool_decide_eq_false. rewrite lookup_delete_eq. by intros [? ?].
    + unfold __getitem__. run. by rewrite lookup_delete_eq.
    + intros k' Hne. unfold __getitem__. run. rewrite Hd. simpl.
      rewrite lookup_delete_ne by done. by destruct (d !! k').
  - unfold __delitem__. rewrite Hk. run. rewrite Hd. simpl. by rewrite Hv.
Qed.

(** The dictionary operations never reach the services: whatever they do,
    both storage tiers and the history of calls stay as they are. *)
Lemma run_op_storage (op : mapping_op) (st : Session * Env) :
  memcache (run_op op st).2 = memcache st.2
  ∧ datastore (run_op op st).2 = datastore st.2
  ∧ trace (run_op op st).2 = trace st.2.
Proof.
  destruct op as [k dflt|k|k v|k| |k]; simpl.
  - by rewrite get_state.
  - by rewrite getitem_state.
  - destruct st as [s e]. destruct (truthy (sid s)) eqn:Hsid.
    + destruct (data s) as [d|] eqn:Hd.
      * by rewrite (setitem_started s e d k v Hsid Hd).
      * unfold __setitem__, data_setitem. run. rewrite Hsid. simpl. by rewrite Hd.
    + by rewrite (setitem_unstarted s e k v Hsid).
  - destruct st as [s e]. unfold __delitem__.
    destruct (String.eqb k "expiration"); [done|].
    run. destruct (data s) as [d|]; simpl; [|done]. by destruct (d !! k).
  - by rewrite iter_state.
  - by rewrite contains_state.
Qed.

(** X4. Whatever handler code does through the dictionary interface, first
    write included, it never calls memcache, the datastore or the log: both
    storage tiers and the history of calls are the same after any sequence
    of dictionary operations. *)
Theorem mapping_ops_never_touch_storage (ops : list mapping_op)
    (st : Session * Env) :
  memcache (run_ops ops st).2 = memcache st.2
  ∧ datastore (run_ops ops st).2 = datastore st.2
  ∧ trace (run_ops ops st).2 = trace st.2.
Proof.
  revert st. induction ops as [|op ops IH]; intros st; [done|].
  simpl. destruct (IH (run_op op st)) as (Hm & Hd & Ht).
  destruct (run_op_storage op st) as (Hm' & Hd' & Ht').
  split; [congruence|]. split; congruence.
Qed.

(** ** Saving *)

(** X5. [save] never changes the session object, whether it returns early,
    writes, or raises: in particular it never clears the dirty flag. *)
Theorem save_leaves_session_unchanged (only_if_changed : bool)
    (st : Session * Env) :
  (save only_if_changed st).2.1 = st.1.
Proof.
  destruct st as [s e]. unfold save. run.
  destruct (truthy (sid s)); simpl; [|done].
  destruct only_if_changed; simpl.
  - destruct (dirty s) as [[|]|]; simpl; [|done|done].
    destruct (data s); simpl; [|done]. destruct (sid s); simpl; [|done].
    destruct (mc_set_ok e (tick e)); simpl;
      destruct (put_result e (S (tick e))); simpl; done.
  - destruct (data s); simpl; [|done]. destruct (sid s); simpl; [|done].
    destruct (mc_set_ok e (tick e)); simpl;
      destruct (put_result e (S (tick e))); simpl; done.
Qed.

(** X6. [save] writes under the session's own identifier only: the record
    of any other identifier is the same before and after, in memcache and in
    the datastore, however the call ends. *)
Theorem save_touches_own_record_only (only_if_changed : bool) (s : Session)
    (e : Env) (k : string) :
  sid s ≠ Some k →
  memcache (save only_if_changed (s, e)).2.2 !! k = memcache e !! k
  ∧ datastore (save only_if_changed (s, e)).2.2 !! k = datastore e !! k.
Proof.
  intros Hk. unfold save. run.
  destruct (truthy (sid s)); simpl; [|done].
  destruct only_if_changed; simpl.
  - destruct (dirty s) as [[|]|]; simpl; [|done|done].
    destruct (data s); simpl; [|done].
    destruct (sid s) as [i|]; simpl; [|done].
    assert (i ≠ k) by congruence.
    destruct (mc_set_ok e (tick e)); simpl;
      destruct (put_result e (S (tick e))); simpl;
      try destruct (mc_set_ok e (S (S (tick e)))); simpl;
      rewrite ?lookup_insert_ne by done; done.
  - destruct (data s); simpl; [|done].
    destruct (sid s) as [i|]; simpl; [|done].
    assert (i ≠ k) by congruence.
    destruct (mc_set_ok e (tick e)); simpl;
      destruct (put_result e (S (tick e))); simpl;
      try destruct (mc_set_ok e (S (S (tick e)))); simpl;
      rewrite ?lookup_insert_ne by done; done.
Qed.

(** ** Starting and rotating *)

(** X7. [start] on a session that has an identifier raises
    [AttributeError], but only after it has replaced the payload by one
    that holds the expiry alone and set the dirty flag: the entries the
    session had are gone from memory, the identifier is the old one, and
    neither storage tier was called. *)
Theorem start_on_active_session_raises (s : Session) (e : Env)
    (expiration : option datetime) :
  truthy (sid s) = true →
  let ex := match expiration with
            | Some t => t
            | None => (clock e (tick e) + COOKIE_LIFETIME)%Z
            end in
  ∃ e', start expiration (s, e)
        = (Raise (AttributeError "key"),
           (mkSession (sid s) (cookie_header_data s)
                      (Some {["expiration" := VDatetime ex]}) (Some true) (db_key s),
            e'))
    ∧ memcache e' = memcache e
    ∧ datastore e' = datastore e
    ∧ trace e' = trace e.
Proof.
  intros Hsid. simpl.
  unfold start, __set_sid, __make_sid, __clear_data, data_setitem.
  destruct expiration as [t|]; run; rewrite Hsid; simpl;
    rewrite insert_empty; by eexists.
Qed.

(** X8. [user_is_now_logged_in] on a session without identifier: when the
    payload has no ['expiration'] entry (a visitor who never had a session)
    it raises [KeyError], having already assigned the new identifier and
    scheduled no cookie; when the payload holds a datetime there, it
    returns with the new identifier, its cookie and the dirty flag, and the
    payload as it was.  Neither storage tier is called. *)
Theorem user_is_now_logged_in_without_sid (s : Session) (e : Env)
    (d : gmap string value) :
  truthy (sid s) = false →
  data s = Some d →
  let new := md5_hexdigest (urandom e (tick e)) in
  (d !! "expiration" = None →
   user_is_now_logged_in (s, e)
     = (Raise (KeyError "expiration"),
        (mkSession (Some new) (cookie_header_data s) (Some d) (dirty s) (Some new),
         next_tick e)))
  ∧ (∀ t, d !! "expiration" = Some (VDatetime t) →
     user_is_now_logged_in (s, e)
       = (Ret tt,
          (mkSession (Some new) (Some (cookie_output new COOKIE_PATH (strftime t)))
                     (Some d) (Some true) (Some new),
           next_tick e))).
Proof.
  intros Hsid Hd. simpl.
  split; [intros Hex|intros t Hex];
    unfold user_is_now_logged_in, __set_sid, __make_sid, value_strftime;
    run; rewrite Hsid; simpl; rewrite Hd; simpl; by rewrite Hex.
Qed.

Section FreshSession.

Hypothesis md5_hexdigest_length :
  ∀ b, String.length (md5_hexdigest b) = 32%nat.
Hypothesis cookie_output_nonempty :
  ∀ i path expires, cookie_output i path expires ≠ "".

(** X9. [start] on a session without identifier returns with a new
    identifier, a payload that holds nothing but the expiry (the one given,
    or now plus seven days), and the dirty flag; the cookie it schedules
    carries that identifier, the path [/] and that expiry, and the next
    [get_cookie_out] hands it out.  Entries the payload had before are
    dropped, and neither storage tier is called. *)
Theorem start_fresh_session (s : Session) (e : Env)
    (expiration : option datetime) :
  truthy (sid s) = false →
  let ex := match expiration with
            | Some t => t
            | None => (clock e (tick e) + 604800000000)%Z
            end in
  ∃ new e',
    let header := cookie_output new "/" (strftime ex) in
    let s' := mkSession (Some new) (Some header)
                (Some {["expiration" := VDatetime ex]}) (Some true) (Some new) in
    start expiration (s, e) = (Ret tt, (s', e'))
    ∧ truthy (Some new) = true
    ∧ get_cookie_out (s', e')
      = (Ret (Some header),
         (mkSession (Some new) None (Some {["expiration" := VDatetime ex]})
                    (Some true) (Some new), e'))
    ∧ memcache e' = memcache e
    ∧ datastore e' = datastore e
    ∧ trace e' = trace e.
Proof.
  intros Hsid. simpl.
  pose proof (start_without_sid s e expiration Hsid) as Hstart. simpl in Hstart.
  eexists; eexists. split; [exact Hstart|].
  split.
  { pose proof (md5_hexdigest_length
      (urandom match expiration with Some _ => e | None => next_tick e end
               (tick match expiration with Some _ => e | None => next_tick e end))) as Hlen.
    by destruct (md5_hexdigest _). }
  split.
  { unfold get_cookie_out. run.
    match goal with
    | |- context [cookie_output ?a ?b ?c] =>
        pose proof (cookie_output_nonempty a b c) as Hne;
        destruct (cookie_output a b c) eqn:Hc; [done|]
    end.
    done. }
  by destruct expiration.
Qed.

End FreshSession.

(** ** Constructing a session *)

(** [__retrieve_data] in closed form, for a session built by [__set_sid]. *)
Lemma retrieve_data_eq (s : Session) (e : Env) (i : string) :
  sid s = Some i →
  db_key s = Some i →
  __retrieve_data (s, e)
  = match memcache e !! i with
    | Some p => decode_data p (s, emit (EvMemcacheGet i) e)
    | None =>
        match datastore e !! i with
        | Some p => decode_data p (s, emit (EvDbGet i) (emit (EvMemcacheGet i) e))
        | None =>
            (Ret ∅,
             (s, emit (EvLog LError
                         ("can't find session data in the datastore for sid=" ++ i)%string)
                   (emit (EvDbGet i) (emit (EvMemcacheGet i) e))))
        end
    end.
Proof.
  intros Hi Hk. unfold __retrieve_data. run. rewrite Hi. simpl.
  destruct (memcache e !! i); [done|]. simpl. rewrite Hk. simpl.
  by destruct (datastore e !! i).
Qed.

(** The constructor with a cookie the datastore can make a key of:
    identifier and key are set, the session is marked clean, then the
    payload is loaded. *)
Lemma session_new_eq (s0 : Session) (e : Env) (i : string) :
  i ≠ "" →
  Session_new (Some i) (s0, e)
  = match __retrieve_data (mkSession (Some i) None None (Some false) (Some i), e) with
    | (Ret d, (s', e')) =>
        (Ret tt,
         (mkSession (sid s') (cookie_header_data s') (Some d) (dirty s') (db_key s'), e'))
    | (Raise x, st') => (Raise x, st')
    end.
Proof.
  intros Hne. destruct i as [|c i]; [done|].
  unfold Session_new, __init__, __set_sid, Key_from_path. run.
  by destruct (__retrieve_data _) as [[d|x] [s' e']].
Qed.


(** ** The codec *)

(** X11. [__encode_data] splits the payload before pickling: a model
    instance goes to the first dictionary as its protocol buffer and is not
    in the second, every other value goes to the second as it is and is not
    in the first, and no key is added. *)
Theorem encode_split_partitions (d : gmap string value) (k : string) :
  match d !! k with
  | Some (VModel m) =>
      (encode_split d).1 !! k = Some (model_to_protobuf m)
      ∧ (encode_split d).2 !! k = None
  | Some v =>
      (encode_split d).1 !! k = None
      ∧ (encode_split d).2 !! k = Some v
  | None =>
      (encode_split d).1 !! k = None
      ∧ (encode_split d).2 !! k = None
  end.
Proof.
  destruct (encode_split_lookup d k) as [HP HO]. rewrite HP, HO.
  by destruct (d !! k) as [[t|o|m]|].
Qed.

(** A protocol buffer that does not decode makes the loop of
    [__decode_data] fail, wherever it comes in the iteration. *)
Lemma decode_fold_fails (eP : gmap string protobuf) (eO : gmap string value) :
  (∃ k pb, eP !! k = Some pb ∧ model_from_protobuf pb = None) →
  map_fold decode_step (Some eO) eP = None.
Proof.
  apply (map_fold_weak_ind (λ acc m,
    (∃ k pb, m !! k = Some pb ∧ model_from_protobuf pb = None) → acc = None)).
  - intros (k & pb & Hk & _). by rewrite lookup_empty in Hk.
  - intros i x m acc Hi IH (k & pb & Hk & Hpb).
    unfold decode_step. destruct acc as [r|]; [|done]. simpl.
    destruct (decide (i = k)) as [->|Hne].
    + rewrite lookup_insert_eq in Hk. injection Hk as ->. by rewrite Hpb.
    + rewrite lookup_insert_ne in Hk by done.
      discriminate IH. eauto.
Qed.

(** X12. [__decode_data] on bytes that unpickle to [(eP, eO)]: when every
    protocol buffer of [eP] decodes, the result has the decoded model under
    each key of [eP] (also where [eO] has that key) and the value of [eO]
    under every other key; when one of them does not decode, the whole
    decoding fails and no partial payload comes back. *)
Theorem decode_data_all_or_nothing (p : pdump) (eP : gmap string protobuf)
    (eO : gmap string value) :
  pickle_loads p = Some (eP, eO) →
  ((∀ k pb, eP !! k = Some pb → is_Some (model_from_protobuf pb)) →
   ∃ r, __decode_data p = Some r
        ∧ ∀ k, r !! k = match eP !! k with
                        | Some pb => VModel <$> model_from_protobuf pb
                        | None => eO !! k
                        end)
  ∧ ((∃ k pb, eP !! k = Some pb ∧ model_from_protobuf pb = None) →
     __decode_data p = None).
Proof.
  intros Hp. unfold __decode_data. rewrite Hp. simpl. split.
  - apply decode_fold_lookup.
  - apply decode_fold_fails.
Qed.

(** ** What is saved is what the next request loads *)

(** [save] on a started, dirty session in closed form: it returns, and the
    accepted writes are in the tiers. *)
Lemma save_stores (s : Session) (e : Env) (only_if_changed : bool)
    (i : string) (d : gmap string value) :
  sid s = Some i →
  truthy (sid s) = true →
  dirty s = Some true →
  data s = Some d →
  put_result e (S (tick e)) = PutOk
  ∨ put_result e (S (tick e)) = PutTransactionFailed →
  ∃ e', save only_if_changed (s, e) = (Ret tt, (s, e'))
    ∧ memcache e'
      = (if mc_set_ok e (tick e) || mc_set_ok e (S (S (tick e)))
         then <[i := __encode_data d]> (memcache e) else memcache e)
    ∧ datastore e'
      = match put_result e (S (tick e)) with
        | PutOk => <[i := __encode_data d]> (datastore e)
        | _ => datastore e
        end.
Proof.
  intros Hi Hsid Hdirty Hdata Hput.
  unfold save. run. rewrite Hsid. simpl.
  destruct only_if_changed; simpl; rewrite ?Hdirty; simpl;
    rewrite Hdata; simpl; rewrite Hi; simpl;
    destruct (mc_set_ok e (tick e)) eqn:Hok1; simpl;
    destruct Hput as [Hr|Hr]; rewrite Hr; simpl;
    destruct (mc_set_ok e (S (S (tick e)))) eqn:Hok2; simpl;
    eexists; (split; [reflexivity|]); simpl;
    rewrite ?insert_insert_eq; done.
Qed.

(** X16. [save] on a started, dirty session whose [put] succeeds or fails
    with [TransactionFailedError], whatever [only_if_changed] is: it pickles
    the payload once, offers the bytes to memcache, then puts them in the
    datastore; the failed [put] is logged as a warning and does not reach
    the caller; and when memcache refused the first [set], one more [set]
    follows the [put].  The history of calls says so in this order, and both
    tiers hold what the accepted writes stored. *)
Theorem save_writes_both_tiers (s : Session) (e : Env) (only_if_changed : bool)
    (i : string) (d : gmap string value) :
  sid s = Some i →
  truthy (sid s) = true →
  dirty s = Some true →
  data s = Some d →
  put_result e (S (tick e)) = PutOk
  ∨ put_result e (S (tick e)) = PutTransactionFailed →
  let p := __encode_data d in
  let ok1 := mc_set_ok e (tick e) in
  let r := put_result e (S (tick e)) in
  let ok2 := mc_set_ok e (S (S (tick e))) in
  ∃ e', save only_if_changed (s, e) = (Ret tt, (s, e'))
    ∧ trace e'
      = (trace e
         ++ [EvEncode d; EvMemcacheSet i p ok1; EvDbPut i p r]
         ++ match r with
            | PutTransactionFailed =>
                [EvLog LWarning
                   ("unable to persist session to datastore for sid=" ++ i)%string]
            | _ => []
            end
         ++ (if ok1 then [] else [EvMemcacheSet i p ok2]))%list
    ∧ memcache e' = (if ok1 || ok2 then <[i := p]> (memcache e) else memcache e)
    ∧ datastore e'
      = match r with
        | PutOk => <[i := p]> (datastore e)
        | _ => datastore e
        end.
Proof.
  intros Hi Hsid Hdirty Hdata Hput. simpl.
  unfold save. run. rewrite Hsid. simpl.
  destruct only_if_changed; simpl; rewrite ?Hdirty; simpl;
    rewrite Hdata; simpl; rewrite Hi; simpl;
    destruct (mc_set_ok e (tick e)) eqn:Hok1; simpl;
    destruct Hput as [Hr|Hr]; rewrite Hr; simpl;
    destruct (mc_set_ok e (S (S (tick e)))) eqn:Hok2; simpl;
    eexists; (split; [reflexivity|]); simpl;
    rewrite <- ?app_assoc; simpl; rewrite ?insert_insert_eq; done.
Qed.

Section Persistence.

Hypothesis pickle_roundtrip : ∀ t, pickle_loads (pickle_dumps t) = Some t.
Hypothesis protobuf_roundtrip :
  ∀ m, model_from_protobuf (model_to_protobuf m) = Some m.

Lemma codec_roundtrip (d : gmap string value) :
  __decode_data (__encode_data d) = Some d.
Proof.
  unfold __decode_data, __encode_data. rewrite pickle_roundtrip. simpl.
  destruct (encode_split d) as [eP eO] eqn:Hsplit.
  assert (Hlk : ∀ k,
    eP !! k = (d !! k ≫= λ v, match v with VModel m => Some (model_to_protobuf m) | _ => None end)
    ∧ eO !! k = (d !! k ≫= λ v, if is_model v then None else Some v)).
  { intros k. pose proof (encode_split_lookup d k) as Hk. by rewrite Hsplit in Hk. }
  destruct (decode_fold_lookup eP eO) as (r & -> & Hr).
  - intros k pb Hk. destruct (Hlk k) as [HP _]. rewrite Hk in HP.
    destruct (d !! k) as [[t|o|m]|]; simpl in HP; try discriminate.
    injection HP as ->. rewrite protobuf_roundtrip. eauto.
  - f_equal. apply map_eq. intros k. rewrite Hr.
    destruct (Hlk k) as [HP HO]. rewrite HP, HO.
    destruct (d !! k) as [[t|o|m]|]; simpl; try done.
    by rewrite protobuf_roundtrip.
Qed.

(** X13. After [save] on a started, dirty session whose [put] succeeds or
    fails with [TransactionFailedError], the session the next request
    builds from the same identifier has the saved payload, clean and with no
    cookie to send, provided one write got through: memcache accepted the
    first or the second [set], or the [put] succeeded and memcache holds no
    earlier record of the identifier. *)
Theorem save_then_load (s s0 : Session) (e : Env) (only_if_changed : bool)
    (i : string) (d : gmap string value) :
  sid s = Some i →
  truthy (sid s) = true →
  dirty s = Some true →
  data s = Some d →
  put_result e (S (tick e)) = PutOk
  ∨ put_result e (S (tick e)) = PutTransactionFailed →
  mc_set_ok e (tick e) || mc_set_ok e (S (S (tick e))) = true
  ∨ (put_result e (S (tick e)) = PutOk ∧ memcache e !! i = None) →
  ∃ e' e'',
    save only_if_changed (s, e) = (Ret tt, (s, e'))
    ∧ Session_new (Some i) (s0, e')
      = (Ret tt, (mkSession (Some i) None (Some d) (Some false) (Some i), e'')).
Proof.
  intros Hi Hsid Hdirty Hdata Hput Hwrote.
  destruct (save_stores s e only_if_changed i d Hi Hsid Hdirty Hdata Hput)
    as (e' & Hsave & Hmc & Hdb).
  exists e'.
  assert (Hload : ∃ e'',
    __retrieve_data (mkSession (Some i) None None (Some false) (Some i), e')
    = (Ret d, (mkSession (Some i) None None (Some false) (Some i), e''))).
  { rewrite (retrieve_data_eq _ e' i) by done.
    rewrite Hmc, Hdb. unfold decode_data.
    destruct Hwrote as [Hok|[Hr Hnone]].
    - rewrite Hok. rewrite lookup_insert_eq, codec_roundtrip. by eexists.
    - rewrite Hr. destruct (mc_set_ok e (tick e) || mc_set_ok e (S (S (tick e)))).
      + rewrite lookup_insert_eq, codec_roundtrip. by eexists.
      + rewrite Hnone. rewrite lookup_insert_eq, codec_roundtrip. by eexists. }
  destruct Hload as [e'' Hload]. exists e''. split; [exact Hsave|].
  rewrite session_new_eq by (intros ->; by rewrite Hi in Hsid).
  by rewrite Hload.
Qed.

End Persistence.

(** ** The middleware hook *)

(** A call with a pending cookie returns it and clears the slot. *)
Lemma get_cookie_out_pending (s : Session) (e : Env) :
  truthy (cookie_header_data s) = true →
  get_cookie_out (s, e)
    = (Ret (cookie_header_data s),
       (mkSession (sid s) None (data s) (dirty s) (db_key s), e)).
Proof. intros Hc. unfold get_cookie_out. run. by rewrite Hc. Qed.

(** X14. [my_start_response] on a session with no cookie to send that has
    no identifier or is not dirty: the headers go on as the application
    gave them, and nothing is read, written or logged. *)
Theorem my_start_response_clean (headers : list (string * string))
    (s : Session) (e : Env) :
  truthy (cookie_header_data s) = false →
  truthy (sid s) = false ∨ dirty s = Some false →
  my_start_response headers (s, e) = (Ret headers, (s, e)).
Proof.
  intros Hc Hcase. unfold my_start_response. unfold bind at 1.
  rewrite get_cookie_out_not_pending by done.
  unfold save. run.
  destruct (truthy (sid s)) eqn:Hsid; simpl; [|done].
  destruct Hcase as [?|Hd]; [done|]. by rewrite Hd.
Qed.

Section FirstWriteRequest.

Hypothesis md5_hexdigest_length :
  ∀ b, String.length (md5_hexdigest b) = 32%nat.
Hypothesis cookie_output_nonempty :
  ∀ i path expires, cookie_output i path expires ≠ "".

(** X15. A request without [sid] cookie whose application writes one key
    and then calls the hook, when the [put] of the hook's [save] succeeds or
    fails with [TransactionFailedError]: the headers passed on are the
    application's followed by one [Set-Cookie] header for the new identifier
    with the path and the expiry of the session; the session keeps no cookie
    to send; and the pickle of the payload (the expiry and the key written)
    is in each tier whose write got through, under the new identifier. *)
Theorem first_write_request (s0 : Session) (e : Env) (k : string) (v : value)
    (headers : list (string * string)) :
  put_result e (3 + tick e) = PutOk
  ∨ put_result e (3 + tick e) = PutTransactionFailed →
  let ex := (clock e (tick e) + COOKIE_LIFETIME)%Z in
  let new := md5_hexdigest (urandom e (S (tick e))) in
  let header := cookie_output new COOKIE_PATH (strftime ex) in
  let payload := <[k := v]> ({["expiration" := VDatetime ex]} : gmap string value) in
  let app := λ start_response : list (string * string) → M (list (string * string)),
               (__setitem__ k v;; start_response headers)%py in
  ∃ e',
    __call__ None app (s0, e)
    = (Ret (headers ++ [("Set-Cookie", header)])%list,
       (mkSession (Some new) None (Some payload) (Some true) (Some new), e'))
    ∧ memcache e'
      = (if mc_set_ok e (2 + tick e) || mc_set_ok e (4 + tick e)
         then <[new := __encode_data payload]> (memcache e) else memcache e)
    ∧ datastore e'
      = match put_result e (3 + tick e) with
        | PutOk => <[new := __encode_data payload]> (datastore e)
        | _ => datastore e
        end.
Proof.
  intros Hput. simpl.
  unfold __call__. unfold bind at 1. unfold Session_new at 1. simpl.
  unfold bind at 1.
  rewrite (setitem_unstarted (mkSession None None (Some ∅) None None) e k v eq_refl).
  simpl.
  set (ex := (clock e (tick e) + COOKIE_LIFETIME)%Z).
  set (new := md5_hexdigest (urandom e (S (tick e)))).
  set (header := cookie_output new COOKIE_PATH (strftime ex)).
  set (payload := <[k := v]> ({["expiration" := VDatetime ex]} : gmap string value)).
  assert (Hnew : truthy (Some new) = true)
    by apply (md5_hexdigest_truthy md5_hexdigest_length).
  assert (Hheader : truthy (Some header) = true)
    by apply (cookie_output_truthy cookie_output_nonempty).
  unfold my_start_response. unfold bind at 1.
  rewrite get_cookie_out_pending by exact Hheader.
  destruct (save_stores
              (mkSession (Some new) None (Some payload) (Some true) (Some new))
              (next_tick (next_tick e)) true new payload)
    as (e' & Hsave & Hmc & Hdb); [done|done|done|done|exact Hput|].
  unfold bind at 1. cbn [sid data dirty db_key cookie_header_data].
  rewrite Hsave. unfold ret. rewrite Hheader.
  exists e'. split; [done|]. split; [exact Hmc|exact Hdb].
Qed.

End FirstWriteRequest.

End MoreProperties.

(** * The further properties at work on the small platform *)

Section MoreRuns.

Import Concrete Samples.

(** X1, at work on the loaded session. *)
Lemma reads_agree_witness :
  data active = Some payload1
  ∧ ∃ keys, __iter__ (active, env0) = (Ret keys, (active, env0))
            ∧ NoDup keys
            ∧ ("cart" ∈ keys ↔ is_Some (payload1 !! "cart")).
Proof.
  split; [reflexivity|].
  destruct (reads_agree active env0 payload1 None) as (keys & Hiter & Hnd & Hk);
    [reflexivity|].
  exists keys. split; [exact Hiter|]. split; [exact Hnd|].
  exact (proj1 (Hk "cart")).
Defined.

(** X2, at work: the first write of a visitor is read back. *)
Lemma setitem_then_read_witness :
  truthy (sid unstarted) = false
  ∧ (__getitem__ "cart" (__setitem__ "cart" (VOpaque 3%Z) (unstarted, env0)).2).1
    = Ret (VOpaque 3%Z).
Proof.
  split; [reflexivity|].
  destruct (setitem_then_read unstarted env0 "cart" (VOpaque (H:=types) 3%Z) None)
    as (_ & Hget & _); [right; reflexivity|].
  rewrite Hget. reflexivity.
Defined.

(** X3, at work: deleting the cart of the loaded session. *)
Lemma delitem_removes_key_witness :
  data active = Some payload1
  ∧ "cart" ≠ "expiration"
  ∧ (__delitem__ "cart" (active, env0)).1 = Ret tt.
Proof.
  split; [reflexivity|]. split; [discriminate|].
  pose proof (delitem_removes_key active env0 payload1 "cart") as Hdel.
  assert (Hl : payload1 !! "cart" = Some (VOpaque (H:=types) 3%Z)) by reflexivity.
  rewrite Hl in Hdel.
  destruct Hdel as (Hrun & _); [reflexivity|discriminate|].
  rewrite Hrun. reflexivity.
Defined.

(** X6, at work: saving the session [xyz] leaves the record of [abc]. *)
Lemma save_touches_own_record_only_witness :
  sid other_dirty ≠ Some "abc"
  ∧ datastore (save true (other_dirty, env_evicted)).2.2 !! "abc"
    = Some (__encode_data payload1).
Proof.
  split; [discriminate|].
  destruct (save_touches_own_record_only true other_dirty env_evicted "abc")
    as [_ Hdb]; [discriminate|].
  rewrite Hdb. reflexivity.
Defined.

(** X7, at work: [start] on the loaded session. *)
Lemma start_on_active_session_raises_witness :
  truthy (sid active) = true
  ∧ (start None (active, env0)).1 = Raise (AttributeError "key")
  ∧ data (start None (active, env0)).2.1
    = Some {["expiration" := VDatetime 604800001000%Z]}.
Proof.
  split; [reflexivity|].
  destruct (start_on_active_session_raises active env0 None)
    as (e' & Hrun & _); [reflexivity|].
  rewrite Hrun. split; reflexivity.
Defined.

(** X8, at work: a visitor without session logs in. *)
Lemma user_is_now_logged_in_without_sid_witness :
  truthy (sid unstarted) = false
  ∧ data unstarted = Some ∅
  ∧ (user_is_now_logged_in (unstarted, env0)).1 = Raise (KeyError "expiration").
Proof.
  split; [reflexivity|]. split; [reflexivity|].
  destruct (user_is_now_logged_in_without_sid unstarted env0 ∅)
    as [Hnone _]; [reflexivity|reflexivity|].
  rewrite Hnone; reflexivity.
Defined.

(** X9, at work: [start] with an expiry given. *)
Lemma start_fresh_session_witness :
  truthy (sid unstarted) = false
  ∧ ∃ st', start (Some 5000%Z) (unstarted, env0) = (Ret tt, st')
           ∧ data st'.1 = Some {["expiration" := VDatetime 5000%Z]}
           ∧ truthy (cookie_header_data st'.1) = true.
Proof.
  split; [reflexivity|].
  destruct (start_fresh_session concrete_md5_hexdigest_length
              concrete_cookie_output_nonempty unstarted env0 (Some 5000%Z))
    as (new & e' & Hrun & _); [reflexivity|].
  eexists. split; [exact Hrun|]. split; reflexivity.
Defined.


(** X12, at work: one malformed protocol buffer and nothing is decoded. *)
Lemma decode_data_all_or_nothing_witness :
  pickle_loads bad_pdump = Some ({["user" := 0%nat]}, {["cart" := VOpaque 3%Z]})
  ∧ __decode_data bad_pdump = None.
Proof.
  assert (Hloads : pickle_loads bad_pdump
                   = Some ({["user" := 0%nat]}, {["cart" := VOpaque (H:=types) 3%Z]}))
    by reflexivity.
  split; [exact Hloads|].
  destruct (decode_data_all_or_nothing bad_pdump _ _ Hloads) as [_ Hfail].
  apply Hfail. exists "user", 0%nat. split; reflexivity.
Defined.

(** X13, at work: memcache refuses the first [set] and the [put] fails, the
    second [set] gets through, and the next request has the payload. *)
Lemma save_then_load_witness :
  put_result env_flaky 1 = PutTransactionFailed
  ∧ mc_set_ok env_flaky 0 || mc_set_ok env_flaky 2 = true
  ∧ ∃ e' e'',
      save true (active_dirty, env_flaky) = (Ret tt, (active_dirty, e'))
      ∧ Session_new (Some "abc") (unstarted, e') = (Ret tt, (active, e'')).
Proof.
  split; [reflexivity|]. split; [reflexivity|].
  destruct (save_then_load concrete_pickle_roundtrip concrete_protobuf_roundtrip
              active_dirty unstarted env_flaky true "abc" payload1)
    as (e' & e'' & Hsave & Hload);
    [reflexivity|reflexivity|reflexivity|reflexivity|right; reflexivity
    |left; reflexivity|].
  exists e', e''. split; [exact Hsave|exact Hload].
Defined.

(** X16, at work: memcache refuses the first [set], the [put] fails with
    [TransactionFailedError]; [save] returns all the same, and the second
    [set] has put the pickle in the cache. *)
Lemma save_writes_both_tiers_witness :
  put_result env_flaky 1 = PutTransactionFailed
  ∧ mc_set_ok env_flaky 0 = false
  ∧ ∃ e', save true (active_dirty, env_flaky) = (Ret tt, (active_dirty, e'))
          ∧ memcache e' !! "abc" = Some (__encode_data payload1)
          ∧ datastore e' = ∅.
Proof.
  split; [reflexivity|]. split; [reflexivity|].
  destruct (save_writes_both_tiers active_dirty env_flaky true "abc" payload1)
    as (e' & Hrun & _ & Hmc & Hdb);
    [reflexivity|reflexivity|reflexivity|reflexivity|right; reflexivity|].
  exists e'. split; [exact Hrun|]. split.
  - rewrite Hmc. reflexivity.
  - rewrite Hdb. reflexivity.
Defined.

(** X14, at work: a request that only read its session. *)
Lemma my_start_response_clean_witness :
  truthy (cookie_header_data active) = false
  ∧ dirty active = Some false
  ∧ my_start_response [("Content-Type", "text/html")] (active, env_evicted)
    = (Ret [("Content-Type", "text/html")], (active, env_evicted)).
Proof.
  split; [reflexivity|]. split; [reflexivity|].
  apply (my_start_response_clean _ active env_evicted);
    [reflexivity|right; reflexivity].
Defined.

(** X15, at work: a visitor's first request puts something in the cart. *)
Lemma first_write_request_witness :
  put_result env0 3 = PutOk
  ∧ (__call__ None cart_app (active, env0)).1
    = Ret [("Content-Type", "text/html");
           ("Set-Cookie",
            " sid=2a2a0000000000000000000000000000; expires=604800001000; Path=/")].
Proof.
  split; [reflexivity|].
  destruct (first_write_request concrete_md5_hexdigest_length
              concrete_cookie_output_nonempty active env0 "cart"
              (VOpaque (H:=types) 3%Z) [("Content-Type", "text/html")])
    as (e' & Hrun & _); [left; reflexivity|].
  unfold cart_app. rewrite Hrun. reflexivity.
Defined.

End MoreRuns.
